(** * The offline caching layer of the tutorial platform (static/sw.js)

    A shallow embedding of the service worker: its cache-name constants, the
    pre-cache manifest, the install / activate / fetch listeners and the four
    request handlers, written in a small state-and-exception monad over the
    browser's [CacheStorage], followed by the properties of the caching
    strategies.

    Conventions of the embedding.
    - A [Cache] is a finite map from request keys to responses.  The Cache
      API compares request URLs with the fragment dropped, so the key of a
      request is [request.url] without its fragment; a request that is not a
      GET matches nothing.  [cache.put] replaces the entry under the key, and
      refuses (rejecting its promise, which the handlers do not await) a
      request that is not a GET over http(s), a 206 response and a response
      whose Vary header names [*]; [cache.addAll] stores its whole batch or
      nothing, and refuses a batch in which two requests have the same key.
      A storage is meant with keys of this form only.  Matching on the
      headers a Vary header names, and storage quotas, are outside the
      model.
    - [CacheStorage] is the list of named caches in creation order: this is
      the order [caches.keys()] reports and [caches.match] searches.
    - The network is an oracle from requests to outcomes: [fetch] either
      fulfils with a response (of any status) or rejects.
    - Every run records the cache and network operations it performs in a
      trace, and what it writes to the console, so that statements such as
      "no network attempt" are statements about the trace.
    - The handlers' awaits are sequenced as written; [cache.put], which the
      source does not await, is taken to complete where it is issued. *)

From Stdlib Require Import ZArith Ascii String.
From stdpp Require Import base option list strings gmap fin_maps.

Local Open Scope string_scope.
Local Open Scope Z_scope.

(** ** Strings *)

(** The double-quote character, and a string holding just it. *)
Definition dquote_char : ascii := Ascii.ascii_of_nat 34.
Definition dq : string := String dquote_char EmptyString.
Definition backslash_char : ascii := Ascii.ascii_of_nat 92.
Definition nl : string := String (Ascii.ascii_of_nat 10) EmptyString.

(** [s.startsWith(p)] *)
Definition startsWith (s p : string) : bool := String.prefix p s.

(** [s.includes(p)]: [p] occurs somewhere in [s]. *)
Fixpoint includes (s p : string) : bool :=
  String.prefix p s ||
  match s with
  | EmptyString => false
  | String _ s' => includes s' p
  end.

(** [xs.includes(x)] on an array of strings. *)
Definition Array_includes (xs : list string) (x : string) : bool :=
  existsb (String.eqb x) xs.

(** No string occurs twice in the list. *)
Fixpoint distinct (xs : list string) : bool :=
  match xs with
  | [] => true
  | x :: xs' => negb (Array_includes xs' x) && distinct xs'
  end.

(** [JSON.stringify] on a string value: quotes and backslashes are escaped. *)
Fixpoint json_escape (s : string) : string :=
  match s with
  | EmptyString => EmptyString
  | String c s' =>
      if Ascii.eqb c dquote_char then String backslash_char (String c (json_escape s'))
      else if Ascii.eqb c backslash_char then String backslash_char (String c (json_escape s'))
      else String c (json_escape s')
  end.

Definition JSON_string (s : string) : string := dq +:+ json_escape s +:+ dq.

(** [JSON.stringify({ k: v })] for an object with one string-valued field. *)
Definition JSON_stringify_obj1 (k v : string) : string :=
  "{" +:+ JSON_string k +:+ ":" +:+ JSON_string v +:+ "}".

(** ** URLs *)

Record URL := mkURL {
  href : string;
  protocol : string;
  origin : string;
  pathname : string
}.

(** Splits [s] before the first character satisfying [stop]. *)
Fixpoint break_at (stop : ascii -> bool) (s : string) : string * string :=
  match s with
  | EmptyString => (EmptyString, EmptyString)
  | String c s' =>
      if stop c then (EmptyString, s)
      else let '(a, b) := break_at stop s' in (String c a, b)
  end.

Definition is_colon (c : ascii) : bool := Ascii.eqb c ":".
Definition is_hash (c : ascii) : bool := Ascii.eqb c "#".
Definition ends_authority (c : ascii) : bool :=
  Ascii.eqb c "/" || Ascii.eqb c "?" || Ascii.eqb c "#".
Definition ends_path (c : ascii) : bool :=
  Ascii.eqb c "?" || Ascii.eqb c "#".

Definition drop_string (n : nat) (s : string) : string :=
  String.substring n (String.length s - n) s.

(** A serialised URL with its fragment dropped: the form in which the Cache
    API compares request URLs. *)
Definition cache_key (u : string) : string := fst (break_at is_hash u).

(** [new URL(s)] for a serialised absolute URL [scheme://authority/path?query#fragment],
    which is what [request.url] holds.  The fragment is split off first; a
    URL without an authority has the opaque origin, serialised as ["null"]. *)
Definition URL_parse (s : string) : URL :=
  let '(scheme, rest) := break_at is_colon (cache_key s) in
  let proto := scheme +:+ ":" in
  let after := drop_string 1 rest in
  if String.prefix "//" after then
    let '(authority, tail) := break_at ends_authority (drop_string 2 after) in
    let '(path, _) := break_at ends_path tail in
    {| href := s;
       protocol := proto;
       origin := proto +:+ "//" +:+ authority;
       pathname := if String.eqb path "" then "/" else path |}
  else
    let '(path, _) := break_at ends_path after in
    {| href := s; protocol := proto; origin := "null"; pathname := path |}.

(** ** Requests and responses *)

Record Request := mkRequest {
  method : string;
  url : string;
  mode : string;
  headers : list (string * string)
}.

(** [headers.get(name)]: the values of the header joined by a comma, if any.
    Header names are kept in lower case, as the Headers object does. *)
Definition Headers_get (hs : list (string * string)) (name : string) : option string :=
  match List.filter (fun h => String.eqb (fst h) name) hs with
  | [] => None
  | h :: more => Some (fold_left (fun acc h' => acc +:+ ", " +:+ snd h') more (snd h))
  end.

Inductive ResponseType :=
  | Basic | Cors | Default | ErrorResponse | Opaque | OpaqueRedirect.

Record Response := mkResponse {
  status : Z;
  statusText : string;
  response_headers : list (string * string);
  body : string;
  type : ResponseType
}.

(** [response.type] is one of the strings basic, cors, default, error,
    opaque, opaqueredirect; a response built by [new Response] has type
    default. *)

(** [response.ok] *)
Definition ok (r : Response) : bool := (200 <=? status r) && (status r <=? 299).

(** [response.clone()] *)
Definition clone (r : Response) : Response := r.

(** [new Response(body, { status, statusText, headers })] for a string body:
    unless the given headers have a content type, the body's own is added. *)
Definition new_Response (b : string) (st : Z) (txt : string)
    (hs : list (string * string)) : Response :=
  {| status := st; statusText := txt;
     response_headers :=
       match Headers_get hs "content-type" with
       | Some _ => hs
       | None => hs ++ [("content-type", "text/plain;charset=UTF-8")]
       end;
     body := b; type := Default |}.

(** The field values of a comma-separated header value, without the white
    space around them. *)
Definition is_space (c : ascii) : bool :=
  Ascii.eqb c " " || Ascii.eqb c (Ascii.ascii_of_nat 9).

Fixpoint ltrim (s : string) : string :=
  match s with
  | EmptyString => EmptyString
  | String c s' => if is_space c then ltrim s' else s
  end.

Fixpoint rtrim (s : string) : string :=
  match s with
  | EmptyString => EmptyString
  | String c s' =>
      let t := rtrim s' in
      if is_space c && String.eqb t "" then EmptyString else String c t
  end.

Fixpoint split_commas (s : string) : list string :=
  match s with
  | EmptyString => [EmptyString]
  | String c s' =>
      if Ascii.eqb c "," then EmptyString :: split_commas s'
      else match split_commas s' with
           | [] => [String c EmptyString]
           | w :: ws => String c w :: ws
           end
  end.

Definition field_values (v : string) : list string :=
  map (fun w => rtrim (ltrim w)) (split_commas v).

(** The response has a Vary header one of whose values is [*]. *)
Definition vary_star (r : Response) : bool :=
  match Headers_get (response_headers r) "vary" with
  | Some v => existsb (String.eqb "*") (field_values v)
  | None => false
  end.

Definition is_http (proto : string) : bool :=
  String.eqb proto "http:" || String.eqb proto "https:".

(** [cache.put(request, r)] goes through: the request is a GET over http(s),
    the response is not partial content and its Vary header does not name
    [*].  Otherwise the promise rejects with a TypeError and nothing is
    stored. *)
Definition put_accepts (request : Request) (r : Response) : bool :=
  String.eqb (method request) "GET"
  && is_http (protocol (URL_parse (url request)))
  && negb (status r =? 206)
  && negb (vary_star r).

(** [cache.addAll] takes the response: it is ok, not partial content, and
    its Vary header does not name [*]. *)
Definition addAll_accepts (r : Response) : bool :=
  ok r && negb (status r =? 206) && negb (vary_star r).

(** The absolute URL of a manifest entry: a root-relative path is resolved
    against the worker's origin, an absolute URL stands as it is. *)
Definition resolve (self_origin s : string) : string :=
  if String.prefix "/" s then self_origin +:+ s else s.

(** [new Request(u)]: a plain GET for the absolute URL [u]. *)
Definition new_Request (u : string) : Request :=
  {| method := "GET"; url := u; mode := "cors"; headers := [] |}.

(** ** Cache storage *)

Abbreviation Cache := (gmap string Response).
Abbreviation CacheStorage := (list (string * gmap string Response)).

(** The cache called [name], if the storage has one. *)
Fixpoint storage_get (cs : CacheStorage) (name : string) : option Cache :=
  match cs with
  | [] => None
  | (n, c) :: cs' => if String.eqb n name then Some c else storage_get cs' name
  end.

Definition storage_has (cs : CacheStorage) (name : string) : bool :=
  existsb (fun nc => String.eqb (fst nc) name) cs.

(** [caches.open(name)]: creates the cache, last in order, when it is missing. *)
Definition storage_open (cs : CacheStorage) (name : string) : CacheStorage :=
  if storage_has cs name then cs else cs ++ [(name, ∅)].

(** The entry under [key] in the cache called [name] is replaced by [r]. *)
Fixpoint storage_put (cs : CacheStorage) (name key : string) (r : Response) : CacheStorage :=
  match cs with
  | [] => []
  | (n, c) :: cs' =>
      if String.eqb n name then (n, <[key := r]> c) :: cs'
      else (n, c) :: storage_put cs' name key r
  end.

(** The entry under exactly [key] in the first cache, in creation order, that
    has one. *)
Fixpoint storage_match (cs : CacheStorage) (key : string) : option Response :=
  match cs with
  | [] => None
  | (_, c) :: cs' =>
      match c !! key with
      | Some r => Some r
      | None => storage_match cs' key
      end
  end.

(** [caches.keys()] *)
Definition storage_keys (cs : CacheStorage) : list string := map fst cs.

(** [caches.delete(name)] *)
Definition storage_delete (cs : CacheStorage) (name : string) : CacheStorage :=
  List.filter (fun nc => negb (String.eqb (fst nc) name)) cs.

(** The key under which the Cache API files and finds [request]. *)
Definition key_of (request : Request) : string := cache_key (url request).

(** What [caches.match(request)] resolves to on the storage [cs]: a request
    that is not a GET matches nothing. *)
Definition match_in (cs : CacheStorage) (request : Request) : option Response :=
  if String.eqb (method request) "GET" then storage_match cs (key_of request) else None.

(** ** The worker's world: storage, trace and console *)

Inductive FetchOutcome :=
  | Fulfilled (r : Response)
  | Rejected (e : string).

Inductive Event :=
  | EvFetch (request : Request)
  | EvMatch (key : string)
  | EvOpen (name : string)
  | EvPut (name key : string) (r : Response)
  | EvKeys
  | EvDelete (name : string)
  | EvSkipWaiting
  | EvClaim.

Inductive ConsoleLine :=
  | Log (msg : string)
  | Error (msg : string).

Record SW := mkSW {
  caches : CacheStorage;
  trace : list Event;
  console : list ConsoleLine
}.

Definition emit (e : Event) (s : SW) : SW :=
  {| caches := caches s; trace := trace s ++ [e]; console := console s |}.

Definition set_caches (cs : CacheStorage) (s : SW) : SW :=
  {| caches := cs; trace := trace s; console := console s |}.

Definition print (l : ConsoleLine) (s : SW) : SW :=
  {| caches := caches s; trace := trace s; console := console s ++ [l] |}.

(** The state a run starts from: the given storage, nothing done yet. *)
Definition start (cs : CacheStorage) : SW :=
  {| caches := cs; trace := []; console := [] |}.

(** ** Asynchronous code: state passing with exceptions *)

Inductive Outcome (A : Type) :=
  | Returned (a : A)
  | Thrown (e : string).
Arguments Returned {A} a.
Arguments Thrown {A} e.

Definition M (A : Type) : Type := SW -> Outcome A * SW.

#[export] Instance M_ret : MRet M := fun A a s => (Returned a, s).

#[export] Instance M_bind : MBind M := fun A B f m s =>
  match m s with
  | (Returned a, s') => f a s'
  | (Thrown e, s') => (Thrown e, s')
  end.

Definition throw {A} (e : string) : M A := fun s => (Thrown e, s).

(** [try { m } catch (error) { h(error) }] *)
Definition try_catch {A} (m : M A) (h : string -> M A) : M A := fun s =>
  match m s with
  | (Returned a, s') => (Returned a, s')
  | (Thrown e, s') => h e s'
  end.

Definition console_log (msg : string) : M unit := fun s => (Returned tt, print (Log msg) s).
Definition console_error (msg : string) : M unit := fun s => (Returned tt, print (Error msg) s).

(** [for (x of xs) await f(x)] *)
Fixpoint forEach {A} (f : A -> M unit) (xs : list A) : M unit :=
  match xs with
  | [] => mret tt
  | x :: xs' => f x ;; forEach f xs'
  end.

Definition caches_match (request : Request) : M (option Response) := fun s =>
  (Returned (match_in (caches s) request), emit (EvMatch (url request)) s).

(** The handle [caches.open] gives is the cache's name. *)
Definition caches_open (name : string) : M string := fun s =>
  (Returned name, emit (EvOpen name) (set_caches (storage_open (caches s) name) s)).

(** The write of a put that goes through. *)
Definition batch_put (cache : string) (request : Request) (r : Response) : M unit := fun s =>
  (Returned tt,
   emit (EvPut cache (url request) r)
     (set_caches (storage_put (caches s) cache (key_of request) r) s)).

(** [cache.put(request, r)], not awaited: a refused put leaves the storage as
    it is, and the handler does not see the rejection. *)
Definition cache_put (cache : string) (request : Request) (r : Response) : M unit := fun s =>
  if put_accepts request r then batch_put cache request r s
  else (Returned tt, emit (EvPut cache (url request) r) s).

Definition caches_keys : M (list string) := fun s =>
  (Returned (storage_keys (caches s)), emit EvKeys s).

Definition caches_delete (name : string) : M unit := fun s =>
  (Returned tt, emit (EvDelete name) (set_caches (storage_delete (caches s) name) s)).

Definition skipWaiting : M unit := fun s => (Returned tt, emit EvSkipWaiting s).
Definition clients_claim : M unit := fun s => (Returned tt, emit EvClaim s).

(** ** The offline fallback page

    The template literal of [createOfflinePage], line by line. *)
Definition offline_page_lines : list string :=
  [ "";
    "    <!DOCTYPE html>";
    "    <html lang=" +:+ dq +:+ "en" +:+ dq +:+ ">";
    "    <head>";
    "        <meta charset=" +:+ dq +:+ "UTF-8" +:+ dq +:+ ">";
    "        <meta name=" +:+ dq +:+ "viewport" +:+ dq +:+ " content=" +:+ dq +:+ "width=device-width, initial-scale=1.0" +:+ dq +:+ ">";
    "        <title>Offline - Tutorial Platform</title>";
    "        <style>";
    "            body { ";
    "                font-family: Arial, sans-serif; ";
    "                text-align: center; ";
    "                padding: 2rem; ";
    "                color: #333; ";
    "                background: linear-gradient(135deg, #007bff 0%, #0056b3 100%);";
    "                min-height: 100vh;";
    "                margin: 0;";
    "                display: flex;";
    "                align-items: center;";
    "                justify-content: center;";
    "            }";
    "            .offline-container {";
    "                background: white;";
    "                padding: 3rem;";
    "                border-radius: 15px;";
    "                box-shadow: 0 10px 30px rgba(0,0,0,0.2);";
    "                max-width: 500px;";
    "            }";
    "            .offline-icon {";
    "                font-size: 4rem;";
    "                margin-bottom: 1rem;";
    "            }";
    "            h1 { color: #007bff; margin-bottom: 1rem; }";
    "            p { color: #666; line-height: 1.6; margin-bottom: 1.5rem; }";
    "            .btn {";
    "                background: #007bff;";
    "                color: white;";
    "                border: none;";
    "                padding: 12px 24px;";
    "                border-radius: 5px;";
    "                cursor: pointer;";
    "                text-decoration: none;";
    "                display: inline-block;";
    "                font-size: 1rem;";
    "            }";
    "            .btn:hover { background: #0056b3; }";
    "        </style>";
    "    </head>";
    "    <body>";
    "        <div class=" +:+ dq +:+ "offline-container" +:+ dq +:+ ">";
    "            <div class=" +:+ dq +:+ "offline-icon" +:+ dq +:+ ">ðŸ“š</div>";
    "            <h1>You're Offline</h1>";
    "            <p>It looks like you're not connected to the internet. Some content may not be available, but you can still access previously visited pages.</p>";
    "            <p>Once your connection is restored, you'll have access to all features.</p>";
    "            <button class=" +:+ dq +:+ "btn" +:+ dq +:+ " onclick=" +:+ dq +:+ "window.location.reload()" +:+ dq +:+ ">Try Again</button>";
    "        </div>";
    "    </body>";
    "    </html>";
    "  " ].

Definition offline_page_html : string := String.concat nl offline_page_lines.

(** ** The service worker *)

Definition CACHE_VERSION : string := "v2".
Definition STATIC_CACHE : string := "tutorial-platform-static-" +:+ CACHE_VERSION.
Definition DYNAMIC_CACHE : string := "tutorial-platform-dynamic-" +:+ CACHE_VERSION.
Definition API_CACHE : string := "tutorial-platform-api-" +:+ CACHE_VERSION.

(** Resources to pre-cache (app shell). *)
Definition STATIC_RESOURCES : list string :=
  [ "/";
    "/static/css/style.css";
    "/static/js/main.js";
    "/static/js/admin.js";
    "/static/favicon.ico";
    "/manifest.json";
    "/static/pwa-icons/icon-192x192.png";
    "/static/pwa-icons/icon-512x512.png";
    "https://cdn.jsdelivr.net/npm/bootstrap@5.3.0/dist/css/bootstrap.min.css";
    "https://cdn.jsdelivr.net/npm/bootstrap-icons@1.10.0/font/bootstrap-icons.css";
    "https://cdn.jsdelivr.net/npm/bootstrap@5.3.0/dist/js/bootstrap.bundle.min.js";
    "https://cdn.jsdelivr.net/npm/sortablejs@latest/Sortable.min.js" ].

(** The three cache names of the running version. *)
Definition is_current (cacheName : string) : bool :=
  String.eqb cacheName STATIC_CACHE
  || String.eqb cacheName DYNAMIC_CACHE
  || String.eqb cacheName API_CACHE.

(** [createOfflinePage()] *)
Definition createOfflinePage : Response :=
  new_Response offline_page_html 200 "" [("content-type", "text/html")].

(** The strategy [handleRequest] picks for a request. *)
Inductive Strategy := STATIC | API | NAVIGATION | DYNAMIC.

Section Worker.

(** [self.location.origin] *)
Variable self_origin : string.

(** The network, as it answers during the run. *)
Variable net : Request -> FetchOutcome.

(** [await fetch(request)] *)
Definition fetch (request : Request) : M Response := fun s =>
  match net request with
  | Fulfilled r => (Returned r, emit (EvFetch request) s)
  | Rejected e => (Thrown e, emit (EvFetch request) s)
  end.

(** [cache.addAll(urls)]: a URL that is not http(s) rejects the call before
    anything is fetched.  Every request is fetched; unless all of them are
    fulfilled with a response [addAll] takes, and no two of them have the
    same key, the promise rejects and nothing is stored. *)
Fixpoint fetch_all (requests : list Request) : M (list (Request * Response)) :=
  match requests with
  | [] => mret []
  | request :: rest =>
      r ← fetch request;
      rs ← fetch_all rest;
      mret ((request, r) :: rs)
  end.

Definition cache_addAll (cache : string) (urls : list string) : M unit :=
  let requests := map (fun s => new_Request (resolve self_origin s)) urls in
  if forallb (fun request => is_http (protocol (URL_parse (url request)))) requests
  then fetched ← fetch_all requests;
       if forallb (fun p => addAll_accepts (snd p)) fetched
       then if distinct (map key_of requests)
            then forEach (fun p => batch_put cache (fst p) (snd p)) fetched
            else throw "InvalidStateError: duplicate requests"
       else throw "TypeError: Request failed"
  else throw "TypeError: Request scheme is unsupported".

(** Install event - pre-cache static resources.  The result is the promise
    handed to [event.waitUntil]: [Thrown] would fail the installation. *)
Definition install : M unit :=
  console_log "Service Worker: Installing..." ;;
  try_catch
    (cache ← caches_open STATIC_CACHE;
     console_log "Service Worker: Pre-caching app shell" ;;
     cache_addAll cache STATIC_RESOURCES ;;
     console_log "Service Worker: Skip waiting for activation" ;;
     skipWaiting)
    (fun error => console_error ("Service Worker: Pre-caching failed " +:+ error)).

(** Activate event - clean up old caches and claim clients.  The callback
    mapped over [cacheNames] is [clear_old_cache]; [Promise.all] joins the
    purge and the claim, which are sequenced here in source order. *)
Definition clear_old_cache (cacheName : string) : M unit :=
  if negb (String.eqb cacheName STATIC_CACHE)
     && negb (String.eqb cacheName DYNAMIC_CACHE)
     && negb (String.eqb cacheName API_CACHE)
  then console_log ("Service Worker: Clearing old cache " +:+ cacheName) ;;
       caches_delete cacheName
  else mret tt.

Definition activate : M unit :=
  console_log "Service Worker: Activating..." ;;
  cacheNames ← caches_keys;
  forEach clear_old_cache cacheNames ;;
  clients_claim.

(** Cache First strategy for static resources *)
Definition handleStaticResource (request : Request) : M Response :=
  try_catch
    (cachedResponse ← caches_match request;
     match cachedResponse with
     | Some cached => mret cached
     | None =>
         networkResponse ← fetch request;
         (if ok networkResponse
          then cache ← caches_open STATIC_CACHE;
               cache_put cache request (clone networkResponse)
          else mret tt) ;;
         mret networkResponse
     end)
    (fun error =>
       console_error ("Static resource failed: " +:+ error) ;;
       mret (new_Response "Resource not available offline" 503 "Service Unavailable" [])).

(** Network First strategy for API requests *)
Definition handleApiRequest (request : Request) : M Response :=
  try_catch
    (networkResponse ← fetch request;
     (if ok networkResponse
      then cache ← caches_open API_CACHE;
           cache_put cache request (clone networkResponse)
      else mret tt) ;;
     mret networkResponse)
    (fun error =>
       console_log ("API network failed, trying cache: " +:+ url request) ;;
       cachedResponse ← caches_match request;
       match cachedResponse with
       | Some cached => mret cached
       | None =>
           mret (new_Response
                   (JSON_stringify_obj1 "error" "Offline - data not available")
                   503 "" [("content-type", "application/json")])
       end).

(** Network First strategy for HTML navigation *)
Definition handleNavigationRequest (request : Request) : M Response :=
  try_catch
    (networkResponse ← fetch request;
     (if ok networkResponse
      then cache ← caches_open DYNAMIC_CACHE;
           cache_put cache request (clone networkResponse)
      else mret tt) ;;
     mret networkResponse)
    (fun error =>
       console_log ("Navigation network failed, trying cache: " +:+ url request) ;;
       cachedResponse ← caches_match request;
       match cachedResponse with
       | Some cached => mret cached
       | None => mret createOfflinePage
       end).

(** Dynamic resource handling *)
Definition handleDynamicResource (request : Request) : M Response :=
  try_catch
    (networkResponse ← fetch request;
     (if ok networkResponse
      then cache ← caches_open DYNAMIC_CACHE;
           cache_put cache request (clone networkResponse)
      else mret tt) ;;
     mret networkResponse)
    (fun error =>
       cachedResponse ← caches_match request;
       match cachedResponse with
       | Some cached => mret cached
       | None => mret (new_Response "Content not available offline" 503 "" [])
       end).

(** [request.headers.get('accept')?.includes('text/html')] *)
Definition accepts_html (request : Request) : bool :=
  match Headers_get (headers request) "accept" with
  | Some v => includes v "text/html"
  | None => false
  end.

(** The branch [handleRequest] takes. *)
Definition classify (request : Request) (u : URL) : Strategy :=
  if Array_includes STATIC_RESOURCES (pathname u)
     || startsWith (pathname u) "/static/"
     || negb (String.eqb (origin u) self_origin)
  then STATIC
  else if startsWith (pathname u) "/api/" then API
  else if String.eqb (mode request) "navigate" || accepts_html request then NAVIGATION
  else DYNAMIC.

Definition handleRequest (request : Request) (u : URL) : M Response :=
  match classify request u with
  | STATIC => handleStaticResource request
  | API => handleApiRequest request
  | NAVIGATION => handleNavigationRequest request
  | DYNAMIC => handleDynamicResource request
  end.

(** Fetch event.  [None] is the listener returning without
    [event.respondWith]: the request is left to the browser. *)
Definition onfetch (request : Request) : option (M Response) :=
  let u := URL_parse (url request) in
  if negb (String.eqb (method request) "GET")
     || String.eqb (protocol u) "chrome-extension:"
  then None
  else Some (handleRequest request u).

(** What the page that issued [request] gets.  A request the listener does
    not answer goes to the network as it is, outside the worker; a handler
    that throws reaches the page as a failed fetch. *)
Definition page_fetch (request : Request) (s : SW) : FetchOutcome * SW :=
  match onfetch request with
  | None => (net request, s)
  | Some handler =>
      match handler s with
      | (Returned r, s') => (Fulfilled r, s')
      | (Thrown e, s') => (Rejected e, s')
      end
  end.

End Worker.

(** ** Reading the storage *)

(** The entry under [key] in the cache called [name]. *)
Definition storage_lookup (cs : CacheStorage) (name key : string) : option Response :=
  match storage_get cs name with
  | Some c => c !! key
  | None => None
  end.

(** The cache each strategy's handler opens for its writes. *)
Definition cache_of (st : Strategy) : string :=
  match st with
  | STATIC => STATIC_CACHE
  | API => API_CACHE
  | NAVIGATION => DYNAMIC_CACHE
  | DYNAMIC => DYNAMIC_CACHE
  end.

Definition is_skipWaiting (e : Event) : bool :=
  match e with EvSkipWaiting => true | _ => false end.

Definition is_error (l : ConsoleLine) : bool :=
  match l with Error _ => true | Log _ => false end.

(** [request] can be pre-cached on the network [net]: it is over http(s)
    and its fetch is fulfilled with a response [cache.addAll] takes. *)
Definition precachable (net : Request -> FetchOutcome) (request : Request) : bool :=
  is_http (protocol (URL_parse (url request))) &&
  match net request with
  | Fulfilled r => addAll_accepts r
  | Rejected _ => false
  end.

(** The requests [cache.addAll] issues for the manifest. *)
Definition manifest_requests (self_origin : string) : list Request :=
  map (fun s => new_Request (resolve self_origin s)) STATIC_RESOURCES.

(** The manifest can be pre-cached on the network [net]: each of its
    requests can, and no two of them have the same key. *)
Definition manifest_precachable (self_origin : string) (net : Request -> FetchOutcome) : bool :=
  forallb (precachable net) (manifest_requests self_origin)
  && distinct (map key_of (manifest_requests self_origin)).

(** ** Sample requests, responses and networks

    Concrete data on which the statements below are exercised. *)

Module Sample.

Definition site : string := "https://learn.example".

Definition get (u : string) : Request :=
  {| method := "GET"; url := u; mode := "cors"; headers := [] |}.

Definition progress : Request := get "https://learn.example/api/progress".
Definition style : Request := get "https://learn.example/static/css/style.css".
Definition bootstrap : Request :=
  get "https://cdn.jsdelivr.net/npm/bootstrap@5.3.0/dist/css/bootstrap.min.css".
Definition feed : Request := get "https://learn.example/feed.xml".
Definition video : Request :=
  {| method := "GET"; url := "https://learn.example/static/video/intro.mp4";
     mode := "no-cors"; headers := [("range", "bytes=0-1023")] |}.

Definition lesson : Request :=
  {| method := "GET"; url := "https://learn.example/module/1"; mode := "navigate";
     headers := [("accept", "text/html,application/xhtml+xml")] |}.

Definition save_progress : Request :=
  {| method := "POST"; url := "https://learn.example/api/progress"; mode := "cors";
     headers := [("content-type", "application/json")] |}.

Definition reply (st : Z) (ty : ResponseType) (b : string) : Response :=
  {| status := st; statusText := ""; response_headers := []; body := b; type := ty |}.

Definition fresh : Response := reply 200 Basic "fresh".
Definition stale : Response := reply 200 Basic "stale".
Definition server_error : Response := reply 500 Basic "Internal Server Error".
Definition from_cdn : Response := reply 200 Cors "/* bootstrap */".
Definition partial : Response := reply 206 Basic "bytes 0-1023".

(** A network that answers every request with [r], and one that is down. *)
Definition online (r : Response) : Request -> FetchOutcome := fun _ => Fulfilled r.
Definition offline : Request -> FetchOutcome := fun _ => Rejected "Failed to fetch".

(** A network on which a single URL is unreachable. *)
Definition without (u : string) (r : Response) : Request -> FetchOutcome :=
  fun request => if String.eqb (url request) u then Rejected "Failed to fetch" else Fulfilled r.

(** A storage holding one cache with one entry. *)
Definition holding (name key : string) (r : Response) : CacheStorage :=
  [(name, {[ key := r ]})].

End Sample.

(** Unfolds the monad and the primitive operations of a handler. *)
Ltac run_handler :=
  unfold try_catch, mbind, M_bind, mret, M_ret, fetch, caches_match, caches_open,
    cache_put, batch_put, caches_keys, caches_delete, clients_claim, skipWaiting,
    console_log, console_error, throw, clone, start, emit, print,
    set_caches in *;
  simpl in *.

(** ** Runs of several events *)

(** The cache the responses for a URL go to.  [handleRequest] lets the
    request's mode and headers choose between the navigation and the dynamic
    handler only, and these two open the same cache. *)
Definition url_cache (self_origin key : string) : string :=
  cache_of (classify self_origin (new_Request key) (URL_parse key)).

(** No cache other than [own] holds an entry under [key]. *)
Definition only_in (own key : string) (cs : CacheStorage) : bool :=
  forallb (fun nc => String.eqb nc.1 own ||
                     match nc.2 !! key with Some _ => false | None => true end) cs.

(** Every entry sits in the cache of its URL and is a 2xx response. *)
Definition tidy (self_origin : string) (cs : CacheStorage) : Prop :=
  Forall (fun nc => forall (key : string) (r : Response),
            nc.2 !! key = Some r -> nc.1 = url_cache self_origin key /\ ok r = true) cs.

(** Fetch events handled one after the other, each under the network of its
    moment; what is carried from one to the next is the storage. *)
Definition serve (self_origin : string)
    (events : list ((Request -> FetchOutcome) * Request)) (cs : CacheStorage) : CacheStorage :=
  fold_left (fun cs ev => caches (page_fetch self_origin ev.1 ev.2 (start cs)).2) events cs.

(** Closes the conjuncts of a run that has been computed. *)
Ltac close_case :=
  repeat split; try assumption; try reflexivity; simpl;
  try (repeat (apply List.Forall_cons; [auto |]); apply List.Forall_nil);
  auto.

(** * Properties *)

(** ** The storage operations *)

Section StorageFacts.

Implicit Types (cs : CacheStorage) (name key : string) (r : Response).

Lemma storage_has_get cs name :
  storage_has cs name = true <-> is_Some (storage_get cs name).
Proof.
  induction cs as [|[n c] cs IH]; simpl.
  - split; [discriminate | intros [? ?]; discriminate].
  - destruct (String.eqb n name); simpl; [split; eauto | exact IH].
Qed.

Lemma storage_get_app cs cs' name :
  storage_get (cs ++ cs') name =
  match storage_get cs name with Some c => Some c | None => storage_get cs' name end.
Proof.
  induction cs as [|[n c] cs IH]; simpl; [reflexivity|].
  destruct (String.eqb n name); [reflexivity | exact IH].
Qed.

Lemma storage_get_open_ne cs name name' :
  name <> name' -> storage_get (storage_open cs name) name' = storage_get cs name'.
Proof.
  intros Hne. unfold storage_open. destruct (storage_has cs name); [reflexivity|].
  rewrite storage_get_app. destruct (storage_get cs name'); [reflexivity|]. simpl.
  apply String.eqb_neq in Hne. rewrite Hne. reflexivity.
Qed.

Lemma storage_get_open_eq cs name :
  storage_get (storage_open cs name) name = Some (default ∅ (storage_get cs name)).
Proof.
  unfold storage_open. destruct (storage_has cs name) eqn:Hhas.
  - apply storage_has_get in Hhas. destruct Hhas as [c Hc]. rewrite Hc. reflexivity.
  - rewrite storage_get_app. destruct (storage_get cs name) eqn:Hget.
    + assert (storage_has cs name = true) by (apply storage_has_get; eauto). congruence.
    + simpl. rewrite String.eqb_refl. reflexivity.
Qed.

Lemma storage_get_put_eq cs name key r :
  storage_get (storage_put cs name key r) name = (insert key r) <$> storage_get cs name.
Proof.
  induction cs as [|[n c] cs IH]; simpl; [reflexivity|].
  destruct (String.eqb n name) eqn:E; simpl; rewrite E; [reflexivity | exact IH].
Qed.

Lemma storage_get_put_ne cs name name' key r :
  name <> name' -> storage_get (storage_put cs name key r) name' = storage_get cs name'.
Proof.
  intros Hne. induction cs as [|[n c] cs IH]; simpl; [reflexivity|].
  destruct (String.eqb n name) eqn:E; simpl.
  - apply String.eqb_eq in E. subst n.
    apply String.eqb_neq in Hne. rewrite Hne. reflexivity.
  - destruct (String.eqb n name'); [reflexivity | exact IH].
Qed.

(** Opening a cache and putting an entry into it: what each lookup sees. *)
Lemma storage_lookup_store cs name key r name' key' :
  storage_lookup (storage_put (storage_open cs name) name key r) name' key' =
  if decide (name = name' /\ key = key') then Some r else storage_lookup cs name' key'.
Proof.
  unfold storage_lookup. destruct (decide (name = name')) as [<-|Hne].
  - rewrite storage_get_put_eq, storage_get_open_eq. simpl.
    destruct (decide (key = key')) as [<-|Hk].
    + rewrite lookup_insert_eq. rewrite decide_True by done. reflexivity.
    + rewrite lookup_insert_ne by done. rewrite decide_False by (intros [_ ?]; done).
      destruct (storage_get cs name); [reflexivity | apply lookup_empty].
  - rewrite storage_get_put_ne, storage_get_open_ne by done.
    rewrite decide_False by (intros [? _]; done). reflexivity.
Qed.

Lemma storage_match_app cs cs' key :
  storage_match (cs ++ cs') key =
  match storage_match cs key with Some r => Some r | None => storage_match cs' key end.
Proof.
  induction cs as [|[n c] cs IH]; simpl; [reflexivity|].
  destruct (c !! key); [reflexivity | exact IH].
Qed.

Lemma storage_match_open cs name key :
  storage_match (storage_open cs name) key = storage_match cs key.
Proof.
  unfold storage_open. destruct (storage_has cs name); [reflexivity|].
  rewrite storage_match_app. destruct (storage_match cs key); [reflexivity|].
  simpl. rewrite lookup_empty. reflexivity.
Qed.

(** A response [caches.match] gives is held by some cache under exactly the key. *)
Lemma storage_match_Some cs key r :
  storage_match cs key = Some r ->
  exists name c, In (name, c) cs /\ c !! key = Some r.
Proof.
  induction cs as [|[n c] cs IH]; simpl; [discriminate|].
  destruct (c !! key) eqn:E.
  - intros [= ->]. exists n, c. split; [left; reflexivity | exact E].
  - intros H. destruct (IH H) as (n' & c' & Hin & Hc). exists n', c'. split; [right|]; assumption.
Qed.

(** After a miss everywhere, a put into a cache that is present is what the
    next match finds. *)
Lemma storage_match_put_miss cs name key r :
  storage_match cs key = None ->
  storage_has cs name = true ->
  storage_match (storage_put cs name key r) key = Some r.
Proof.
  induction cs as [|[n c] cs IH]; simpl; [discriminate|].
  destruct (c !! key) eqn:E; [discriminate|]. intros Hmiss.
  destruct (String.eqb n name) eqn:En; simpl.
  - intros _. rewrite lookup_insert_eq. reflexivity.
  - intros Hhas. rewrite E. apply IH; assumption.
Qed.

Lemma storage_has_open cs name : storage_has (storage_open cs name) name = true.
Proof.
  apply storage_has_get. rewrite storage_get_open_eq. eauto.
Qed.

Lemma storage_match_store_miss cs name key r :
  storage_match cs key = None ->
  storage_match (storage_put (storage_open cs name) name key r) key = Some r.
Proof.
  intros Hmiss. apply storage_match_put_miss.
  - rewrite storage_match_open. exact Hmiss.
  - apply storage_has_open.
Qed.

End StorageFacts.

(** ** Network first, for API requests *)

Lemma api_error_body :
  JSON_stringify_obj1 "error" "Offline - data not available" =
  "{" +:+ dq +:+ "error" +:+ dq +:+ ":" +:+ dq +:+ "Offline - data not available" +:+ dq +:+ "}".
Proof. reflexivity. Qed.

(** C1, as stated, fails: with the API answering 500 and an entry for the
    same key in the cache, the handler returns the 500 from the network and
    not the cached entry. *)
Lemma api_non2xx_is_not_served_from_cache :
  let cs := Sample.holding API_CACHE (url Sample.progress) Sample.stale in
  let res := handleRequest Sample.site (Sample.online Sample.server_error) Sample.progress
               (URL_parse (url Sample.progress)) (start cs) in
  method Sample.progress = "GET" /\
  classify Sample.site Sample.progress (URL_parse (url Sample.progress)) = API /\
  Sample.online Sample.server_error Sample.progress = Fulfilled Sample.server_error /\
  ok Sample.server_error = false /\
  match_in cs Sample.progress = Some Sample.stale /\
  res.1 = Returned Sample.server_error /\
  res.1 <> Returned Sample.stale /\
  trace res.2 = [EvFetch Sample.progress].
Proof.
  vm_compute. repeat split; try reflexivity. discriminate.
Qed.

(** C1 (amended): a request classified API goes to the network first.  A
    fulfilled fetch is returned as it is; when it is 2xx and the put goes
    through, it is the entry of the api cache under the request's key
    afterwards, and otherwise no entry of the storage changes; a non-2xx
    response is returned with the storage untouched and no cache lookup.
    Only a rejected fetch falls back to the cache lookup, and to the 503
    JSON error body when that misses. *)
Theorem api_network_first (self_origin : string) (net : Request -> FetchOutcome)
    (request : Request) (cs : CacheStorage) :
  classify self_origin request (URL_parse (url request)) = API ->
  let res := handleRequest self_origin net request (URL_parse (url request)) (start cs) in
  hd_error (trace res.2) = Some (EvFetch request) /\
  match net request with
  | Fulfilled r =>
      res.1 = Returned r /\
      if ok r
      then if put_accepts request r
           then storage_lookup (caches res.2) API_CACHE (key_of request) = Some r
           else caches res.2 = storage_open cs API_CACHE
      else caches res.2 = cs /\ trace res.2 = [EvFetch request]
  | Rejected _ =>
      caches res.2 = cs /\
      match match_in cs request with
      | Some cached => res.1 = Returned cached
      | None =>
          exists resp, res.1 = Returned resp /\ status resp = 503 /\
            body resp = JSON_stringify_obj1 "error" "Offline - data not available" /\
            Headers_get (response_headers resp) "content-type" = Some "application/json"
      end
  end.
Proof.
  intros Hclass. unfold handleRequest. rewrite Hclass. unfold handleApiRequest.
  run_handler. destruct (net request) as [r|e]; simpl.
  - destruct (ok r) eqn:Hok; simpl; [|repeat split].
    destruct (put_accepts request r) eqn:Hput; simpl; repeat split.
    rewrite storage_lookup_store. rewrite decide_True by done. reflexivity.
  - destruct (match_in cs request); simpl; repeat split.
    eexists. repeat split.
Qed.

Lemma api_network_first_witness :
  (handleRequest Sample.site Sample.offline Sample.progress (URL_parse (url Sample.progress))
     (start (Sample.holding API_CACHE (url Sample.progress) Sample.stale))).1
  = Returned Sample.stale.
Proof.
  assert (Hclass : classify Sample.site Sample.progress (URL_parse (url Sample.progress)) = API)
    by reflexivity.
  pose proof (api_network_first Sample.site Sample.offline Sample.progress
                (Sample.holding API_CACHE (url Sample.progress) Sample.stale) Hclass) as H.
  simpl in H. destruct H as (_ & _ & H). exact H.
Defined.

(** ** Requests and their keys *)

Lemma put_accepts_GET (request : Request) (r : Response) :
  put_accepts request r = true -> String.eqb (method request) "GET" = true.
Proof.
  unfold put_accepts. destruct (String.eqb (method request) "GET"); [reflexivity|].
  discriminate.
Qed.

Lemma match_in_GET (cs : CacheStorage) (request : Request) :
  String.eqb (method request) "GET" = true ->
  match_in cs request = storage_match cs (key_of request).
Proof. unfold match_in. intros ->. reflexivity. Qed.

Lemma match_in_Some (cs : CacheStorage) (request : Request) (r : Response) :
  match_in cs request = Some r ->
  String.eqb (method request) "GET" = true /\ storage_match cs (key_of request) = Some r.
Proof.
  unfold match_in. destruct (String.eqb (method request) "GET"); [auto | discriminate].
Qed.

Lemma match_in_open (cs : CacheStorage) (name : string) (request : Request) :
  match_in (storage_open cs name) request = match_in cs request.
Proof.
  unfold match_in. destruct (String.eqb (method request) "GET"); [|reflexivity].
  apply storage_match_open.
Qed.

(** ** Cache first, for static resources *)

(** C2, as stated, fails: a static resource answered 206 Partial Content (a
    2xx status) is returned but not stored, the Cache API refusing partial
    responses; the same request, once the network is down, gets the 503 and
    not the bytes fetched before. *)
Lemma static_206_is_not_stored :
  let u := URL_parse (url Sample.video) in
  let res := handleRequest Sample.site (Sample.online Sample.partial) Sample.video u
               (start []) in
  let again := handleRequest Sample.site Sample.offline Sample.video u
                 (start (caches res.2)) in
  method Sample.video = "GET" /\
  classify Sample.site Sample.video u = STATIC /\
  status Sample.partial = 206 /\
  ok Sample.partial = true /\
  res.1 = Returned Sample.partial /\
  storage_lookup (caches res.2) STATIC_CACHE (key_of Sample.video) = None /\
  match_in (caches res.2) Sample.video = None /\
  again.1 <> Returned Sample.partial /\
  again.1 = Returned (new_Response "Resource not available offline" 503
                        "Service Unavailable" []).
Proof.
  vm_compute. repeat split; try reflexivity. discriminate.
Qed.

(** C2 (amended): a request classified STATIC that some cache holds is
    answered with that entry and the network is not touched.  On a miss it
    is fetched and the response is returned; when it is 2xx and the put goes
    through (the response is not a 206, for one) it is stored in the static
    cache, after which the same request is answered with it whatever the
    network does; a 2xx response the cache refuses, and a non-2xx one, change
    no entry.  A rejected fetch gives the 503 "Resource not available
    offline" response, of type text/plain, which is not the offline HTML
    page. *)
Theorem static_cache_first (self_origin : string) (net : Request -> FetchOutcome)
    (request : Request) (cs : CacheStorage) :
  classify self_origin request (URL_parse (url request)) = STATIC ->
  let u := URL_parse (url request) in
  let res := handleRequest self_origin net request u (start cs) in
  match match_in cs request with
  | Some cached =>
      res.1 = Returned cached /\ caches res.2 = cs /\
      trace res.2 = [EvMatch (url request)]
  | None =>
      match net request with
      | Fulfilled r =>
          res.1 = Returned r /\
          if ok r
          then if put_accepts request r
               then storage_lookup (caches res.2) STATIC_CACHE (key_of request) = Some r /\
                    forall net' : Request -> FetchOutcome,
                      let again := handleRequest self_origin net' request u
                                     (start (caches res.2)) in
                      again.1 = Returned r /\ caches again.2 = caches res.2 /\
                      trace again.2 = [EvMatch (url request)]
               else caches res.2 = storage_open cs STATIC_CACHE /\
                    match_in (caches res.2) request = None
          else caches res.2 = cs
      | Rejected _ =>
          caches res.2 = cs /\
          exists resp, res.1 = Returned resp /\ status resp = 503 /\
            body resp = "Resource not available offline" /\
            Headers_get (response_headers resp) "content-type"
              = Some "text/plain;charset=UTF-8" /\
            resp <> createOfflinePage
      end
  end.
Proof.
  intros Hclass u. unfold handleRequest. subst u. rewrite Hclass.
  unfold handleStaticResource. run_handler.
  destruct (match_in cs request) as [cached|] eqn:Hmatch; simpl.
  - repeat split.
  - destruct (net request) as [r|e]; simpl.
    + destruct (ok r) eqn:Hok; simpl; [|split; reflexivity].
      destruct (put_accepts request r) eqn:Hput; simpl; split; try reflexivity.
      * pose proof (put_accepts_GET _ _ Hput) as HGET.
        rewrite (match_in_GET _ _ HGET) in Hmatch. split.
        -- rewrite storage_lookup_store. rewrite decide_True by done. reflexivity.
        -- intros net'. rewrite (match_in_GET _ _ HGET).
           rewrite (storage_match_store_miss _ _ _ _ Hmatch). simpl. repeat split.
      * split; [reflexivity|]. rewrite match_in_open. exact Hmatch.
    + split; [reflexivity|]. eexists. repeat split. discriminate.
Qed.

Lemma static_cache_first_witness :
  (handleRequest Sample.site Sample.offline Sample.style (URL_parse (url Sample.style))
     (start (Sample.holding STATIC_CACHE (url Sample.style) Sample.stale))).1
  = Returned Sample.stale.
Proof.
  assert (Hclass : classify Sample.site Sample.style (URL_parse (url Sample.style)) = STATIC)
    by reflexivity.
  pose proof (static_cache_first Sample.site Sample.offline Sample.style
                (Sample.holding STATIC_CACHE (url Sample.style) Sample.stale) Hclass) as H.
  simpl in H. destruct H as (H & _). exact H.
Defined.

(** ** Network first, for navigations *)

(** The retry control of the offline page. *)
Lemma offline_page_retry_button :
  includes (body createOfflinePage)
    ("<button class=" +:+ dq +:+ "btn" +:+ dq +:+ " onclick=" +:+ dq
       +:+ "window.location.reload()" +:+ dq +:+ ">Try Again</button>") = true.
Proof. vm_compute. reflexivity. Qed.

(** The offline page refers to nothing outside itself. *)
Lemma offline_page_self_contained :
  forallb (fun marker => negb (includes (body createOfflinePage) marker))
    ["http:"; "https:"; "//"; "src="; "href="; "url("; "@import"; "<link"; "<script"; "<img"] = true.
Proof. vm_compute. reflexivity. Qed.



(** A navigation to a fragment of a page that is cached is answered with the
    cached page, not with the offline page. *)
Example navigation_to_fragment_offline :
  let part2 := {| method := "GET"; url := "https://learn.example/module/1#part2";
                  mode := "navigate"; headers := [("accept", "text/html")] |} in
  let cs := Sample.holding DYNAMIC_CACHE "https://learn.example/module/1" Sample.stale in
  (handleRequest Sample.site Sample.offline part2 (URL_parse (url part2)) (start cs)).1
  = Returned Sample.stale.
Proof. vm_compute. reflexivity. Qed.

(** ** Activation *)

Lemma clear_old_cache_spec (cacheName : string) (s : SW) :
  (clear_old_cache cacheName s).1 = Returned tt /\
  caches (clear_old_cache cacheName s).2 =
    if is_current cacheName then caches s else storage_delete (caches s) cacheName.
Proof.
  unfold clear_old_cache, is_current.
  destruct (String.eqb cacheName STATIC_CACHE), (String.eqb cacheName DYNAMIC_CACHE),
    (String.eqb cacheName API_CACHE); simpl; split; reflexivity.
Qed.

Lemma forEach_clear_old_cache (names : list string) (s : SW) :
  (forEach clear_old_cache names s).1 = Returned tt /\
  caches (forEach clear_old_cache names s).2 =
    List.filter (fun nc => is_current (fst nc) || negb (Array_includes names (fst nc)))
      (caches s).
Proof.
  revert s. induction names as [|n names IH]; intros s; simpl.
  - split; [reflexivity|]. unfold mret, M_ret. simpl.
    induction (caches s) as [|nc cs IHcs]; simpl; [reflexivity|].
    rewrite orb_true_r. f_equal. exact IHcs.
  - unfold mbind, M_bind.
    destruct (clear_old_cache_spec n s) as [Hret Hcs].
    destruct (clear_old_cache n s) as [[[]|e] s1]; simpl in *; [|discriminate].
    destruct (IH s1) as [IHret IHcs]. split; [exact IHret|].
    rewrite IHcs, Hcs. clear. unfold storage_delete, Array_includes. simpl.
    destruct (is_current n) eqn:Hn.
    + apply List.filter_ext. intros [m c]. simpl.
      destruct (String.eqb m n) eqn:Hmn; simpl; [|reflexivity].
      apply String.eqb_eq in Hmn. subst m. rewrite Hn. reflexivity.
    + induction (caches s) as [|[m c] cs IHcs]; simpl; [reflexivity|].
      destruct (String.eqb m n) eqn:Hmn; simpl.
      * apply String.eqb_eq in Hmn. subst m. rewrite Hn. simpl. exact IHcs.
      * rewrite IHcs. reflexivity.
Qed.

Lemma storage_get_filter (keep : string -> bool) (cs : CacheStorage) (name : string) :
  storage_get (List.filter (fun nc => keep (fst nc)) cs) name =
  if keep name then storage_get cs name else None.
Proof.
  induction cs as [|[n c] cs IH]; simpl.
  - destruct (keep name); reflexivity.
  - destruct (String.eqb n name) eqn:E.
    + apply String.eqb_eq in E. subst n.
      destruct (keep name) eqn:K; simpl; [rewrite String.eqb_refl; reflexivity|].
      exact IH.
    + destruct (keep n); simpl; [rewrite E|]; exact IH.
Qed.

(** C4: activation deletes exactly the caches whose name is none of the
    three current names.  The current caches stay, in their order and with
    their entries: what is left is the storage filtered by name, so a cache
    looked up afterwards is the one that was there if its name is current and
    is gone otherwise. *)
Theorem activate_purges_stale (cs : CacheStorage) :
  let res := activate (start cs) in
  res.1 = Returned tt /\
  caches res.2 = List.filter (fun nc => is_current (fst nc)) cs /\
  forall name : string,
    storage_get (caches res.2) name = if is_current name then storage_get cs name else None.
Proof.
  assert (Hcs : caches (activate (start cs)).2 = List.filter (fun nc => is_current (fst nc)) cs
                /\ (activate (start cs)).1 = Returned tt).
  { unfold activate. run_handler.
    pose proof (forEach_clear_old_cache (storage_keys cs)
                  {| caches := cs; trace := [EvKeys];
                     console := [Log "Service Worker: Activating..."] |}) as [Hret Hc].
    destruct (forEach clear_old_cache (storage_keys cs) _) as [[[]|e] s1];
      simpl in *; [|discriminate].
    split; [|reflexivity]. rewrite Hc. apply List.filter_ext_in.
    intros [n c] Hin. simpl.
    replace (Array_includes (storage_keys cs) n) with true; [apply orb_false_r|].
    symmetry. unfold Array_includes, storage_keys. apply existsb_exists.
    exists n. split; [|apply String.eqb_refl].
    apply in_map_iff. exists (n, c). split; [reflexivity | exact Hin]. }
  destruct Hcs as [Hcs Hret]. simpl. split; [exact Hret|]. split; [exact Hcs|].
  intros name. rewrite Hcs. apply (storage_get_filter is_current).
Qed.

(** ** Installation *)

Lemma storage_has_put (cs : CacheStorage) (name name' key : string) (r : Response) :
  storage_has (storage_put cs name key r) name' = storage_has cs name'.
Proof.
  induction cs as [|[n c] cs IH]; simpl; [reflexivity|].
  destruct (String.eqb n name); simpl; [reflexivity | rewrite IH; reflexivity].
Qed.

Lemma storage_lookup_put (cs : CacheStorage) (name key : string) (r : Response)
    (name' key' : string) :
  storage_has cs name = true ->
  storage_lookup (storage_put cs name key r) name' key' =
  if decide (name = name' /\ key = key') then Some r else storage_lookup cs name' key'.
Proof.
  intros Hhas. apply storage_has_get in Hhas. destruct Hhas as [c Hc].
  unfold storage_lookup. destruct (decide (name = name')) as [<-|Hne].
  - rewrite storage_get_put_eq, Hc. simpl. destruct (decide (key = key')) as [<-|Hk].
    + rewrite lookup_insert_eq, decide_True by done. reflexivity.
    + rewrite lookup_insert_ne by done. rewrite decide_False by (intros [_ ?]; done).
      reflexivity.
  - rewrite storage_get_put_ne by done. rewrite decide_False by (intros [? _]; done).
    reflexivity.
Qed.

Lemma storage_lookup_match (cs : CacheStorage) (name key : string) (r : Response) :
  storage_lookup cs name key = Some r -> is_Some (storage_match cs key).
Proof.
  unfold storage_lookup. induction cs as [|[n c] cs IH]; simpl; [discriminate|].
  destruct (c !! key) eqn:E; [eauto|].
  destruct (String.eqb n name); [congruence | exact IH].
Qed.

Section InstallFacts.

Variable self_origin : string.
Variable net : Request -> FetchOutcome.

Lemma fetch_all_spec (requests : list Request) (s : SW) :
  caches (fetch_all net requests s).2 = caches s /\
  console (fetch_all net requests s).2 = console s /\
  existsb is_skipWaiting (trace (fetch_all net requests s).2) = existsb is_skipWaiting (trace s) /\
  match (fetch_all net requests s).1 with
  | Returned fetched =>
      map fst fetched = requests /\
      Forall (fun p => net p.1 = Fulfilled p.2) fetched
  | Thrown _ => forallb (precachable net) requests = false
  end.
Proof.
  revert s. induction requests as [|rq rest IH]; intros s; simpl.
  - repeat split. constructor.
  - unfold mbind, M_bind, fetch. destruct (net rq) as [r|e] eqn:Hrq; simpl.
    + specialize (IH (emit (EvFetch rq) s)).
      destruct (fetch_all net rest (emit (EvFetch rq) s)) as [[fetched|e] s1]; simpl in *.
      * destruct IH as (Hc & Hl & Ht & Hmap & Hall). repeat split; try assumption.
        -- rewrite Ht, existsb_app. simpl. rewrite !orb_false_r. reflexivity.
        -- rewrite Hmap. reflexivity.
        -- constructor; assumption.
      * destruct IH as (Hc & Hl & Ht & Hbad). repeat split; try assumption.
        -- rewrite Ht, existsb_app. simpl. rewrite !orb_false_r. reflexivity.
        -- rewrite Hbad. apply andb_false_r.
    + repeat split.
      * rewrite existsb_app. simpl. rewrite !orb_false_r. reflexivity.
      * unfold precachable at 1. rewrite Hrq. rewrite andb_false_r. reflexivity.
Qed.

Lemma fetched_all_ok (fetched : list (Request * Response)) :
  Forall (fun p => net p.1 = Fulfilled p.2) fetched ->
  forallb (fun rq => is_http (protocol (URL_parse (url rq)))) (map fst fetched) = true ->
  forallb (fun p => addAll_accepts p.2) fetched = forallb (precachable net) (map fst fetched).
Proof.
  induction 1 as [|[rq r] rest Hhd _ IH]; simpl; [reflexivity|].
  intros Hhttp. apply andb_true_iff in Hhttp. destruct Hhttp as [Hrq Hrest].
  unfold precachable at 1. simpl in Hhd. rewrite Hhd, Hrq, (IH Hrest). reflexivity.
Qed.

(** Storing a batch of fetched pairs: a key outside the batch keeps its
    entry, a key of the batch ends up with the response fetched for it. *)
Lemma put_all_spec (cache : string) (fetched : list (Request * Response)) (s : SW) :
  storage_has (caches s) cache = true ->
  let res := forEach (fun p => batch_put cache p.1 p.2) fetched s in
  res.1 = Returned tt /\
  console res.2 = console s /\
  existsb is_skipWaiting (trace res.2) = existsb is_skipWaiting (trace s) /\
  storage_has (caches res.2) cache = true /\
  forall key : string,
    (~ In key (map (fun p => key_of p.1) fetched) ->
     storage_lookup (caches res.2) cache key = storage_lookup (caches s) cache key) /\
    (In key (map (fun p => key_of p.1) fetched) ->
     exists p, In p fetched /\ key_of p.1 = key /\
       storage_lookup (caches res.2) cache key = Some p.2).
Proof.
  revert s. induction fetched as [|[rq r0] rest IH]; intros s Hhas; cbv zeta.
  - simpl. repeat split; try assumption; try reflexivity. intros [].
  - pose (s1 := emit (EvPut cache (url rq) r0)
                  (set_caches (storage_put (caches s) cache (key_of rq) r0) s)).
    change (forEach (fun p => batch_put cache p.1 p.2) ((rq, r0) :: rest) s)
      with (forEach (fun p => batch_put cache p.1 p.2) rest s1).
    change (map (fun p => key_of p.1) ((rq, r0) :: rest))
      with (key_of rq :: map (fun p => key_of p.1) rest).
    assert (Hhas1 : storage_has (caches s1) cache = true)
      by (subst s1; simpl; rewrite storage_has_put; exact Hhas).
    destruct (IH s1 Hhas1) as (Hret & Hcon & Htr & Hhas' & Hkeys).
    repeat split; try assumption.
    + rewrite Htr. subst s1. unfold emit. simpl. rewrite existsb_app. simpl.
      rewrite !orb_false_r. reflexivity.
    + intros Hnot. destruct (Hkeys key) as [Hframe _].
      rewrite Hframe by (intros ?; apply Hnot; right; assumption).
      subst s1. simpl. rewrite storage_lookup_put by exact Hhas.
      rewrite decide_False; [reflexivity|]. intros [_ Heq]. apply Hnot. left. exact Heq.
    + intros Hin. destruct (Hkeys key) as [Hframe Hhit].
      destruct (in_dec string_dec key (map (fun p => key_of p.1) rest)) as [Hrest|Hrest].
      * destruct (Hhit Hrest) as (p & Hp & Hk & Hlook). exists p.
        split; [right; exact Hp|]. split; assumption.
      * exists (rq, r0). destruct Hin as [Heq|Hin]; [|contradiction].
        split; [left; reflexivity|]. split; [exact Heq|].
        rewrite Hframe by exact Hrest.
        subst s1. simpl. rewrite storage_lookup_put by exact Hhas.
        rewrite decide_True by done. reflexivity.
Qed.

End InstallFacts.

Section InstallTheorems.

Variable self_origin : string.
Variable net : Request -> FetchOutcome.

Lemma distinct_inj {A} (f : A -> string) (l : list A) (x y : A) :
  distinct (map f l) = true -> In x l -> In y l -> f x = f y -> x = y.
Proof.
  induction l as [|z l IH]; simpl; [intros _ []|].
  intros Hd. apply andb_true_iff in Hd. destruct Hd as [Hz Hd].
  assert (Hfresh : forall w, In w l -> f w <> f z).
  { intros w Hw Heq. apply negb_true_iff in Hz.
    assert (Array_includes (map f l) (f z) = true); [|congruence].
    unfold Array_includes. apply existsb_exists. exists (f w).
    split; [apply in_map; exact Hw | apply String.eqb_eq; symmetry; exact Heq]. }
  intros [<-|Hx] [<-|Hy] Heq; try reflexivity.
  - exfalso. apply (Hfresh y Hy). symmetry. exact Heq.
  - exfalso. apply (Hfresh x Hx). exact Heq.
  - apply IH; assumption.
Qed.

(** [cache.addAll] is all or nothing. *)
Lemma cache_addAll_spec (cache : string) (urls : list string) (s : SW) :
  storage_has (caches s) cache = true ->
  let requests := map (fun u => new_Request (resolve self_origin u)) urls in
  let res := cache_addAll self_origin net cache urls s in
  console res.2 = console s /\
  existsb is_skipWaiting (trace res.2) = existsb is_skipWaiting (trace s) /\
  storage_has (caches res.2) cache = true /\
  if forallb (precachable net) requests && distinct (map key_of requests)
  then res.1 = Returned tt /\
       Forall (fun request =>
                 exists r, net request = Fulfilled r /\ addAll_accepts r = true /\
                   storage_lookup (caches res.2) cache (key_of request) = Some r) requests
  else (exists e, res.1 = Thrown e) /\ caches res.2 = caches s.
Proof.
  intros Hhas requests res. subst res. unfold cache_addAll. fold requests.
  destruct (forallb (fun request => is_http (protocol (URL_parse (url request)))) requests)
    eqn:Hhttp.
  2:{ assert (Hno : forallb (precachable net) requests = false).
      { destruct (forallb (precachable net) requests) eqn:Hall; [|reflexivity].
        rewrite <- Hhttp. symmetry. apply forallb_forall. intros rq Hrq.
        pose proof (proj1 (forallb_forall _ _) Hall rq Hrq) as H. unfold precachable in H.
        apply andb_true_iff in H. apply H. }
      rewrite Hno. unfold throw. simpl. repeat split; try assumption. eauto. }
  unfold mbind, M_bind.
  destruct (fetch_all_spec net requests s) as (Hc & Hl & Ht & Hres).
  destruct (fetch_all net requests s) as [[fetched|e] s1]; simpl in *.
  - destruct Hres as [Hmap Hall].
    rewrite (fetched_all_ok net fetched Hall) by (rewrite Hmap; exact Hhttp). rewrite Hmap.
    destruct (forallb (precachable net) requests) eqn:Hok;
      [|unfold throw; simpl; repeat split; try congruence; eauto].
    destruct (distinct (map key_of requests)) eqn:Hdistinct;
      [|unfold throw; simpl; repeat split; try congruence; eauto].
    assert (Hhas1 : storage_has (caches s1) cache = true) by (rewrite Hc; exact Hhas).
    destruct (put_all_spec cache fetched s1 Hhas1) as (Hret & Hcon & Htr & Hhas' & Hkeys).
    simpl. repeat split; try congruence.
    apply List.Forall_forall. intros rq Hrq.
    assert (Hin : In (key_of rq) (map (fun p => key_of p.1) fetched)).
    { rewrite <- (map_map fst key_of), Hmap. apply in_map. exact Hrq. }
    destruct (proj2 (Hkeys (key_of rq)) Hin) as ([rq' r] & Hp & Hk & Hlook). simpl in *.
    assert (Hrq' : In rq' requests)
      by (rewrite <- Hmap; apply in_map_iff; exists (rq', r); split; [reflexivity | exact Hp]).
    assert (rq' = rq) by (apply (distinct_inj key_of requests); assumption). subst rq'.
    pose proof (proj1 (List.Forall_forall _ _) Hall _ Hp) as Hnet. simpl in Hnet.
    exists r. repeat split; try assumption.
    pose proof (proj1 (forallb_forall _ _) Hok rq Hrq) as H. unfold precachable in H.
    rewrite Hnet in H. apply andb_true_iff in H. apply H.
  - rewrite Hres. simpl. repeat split; try congruence. eauto.
Qed.

(** C5 (amended): installation opens the static cache and never fails.  When
    the manifest can be pre-cached (every manifest URL is over http(s) and is
    fetched with a response [cache.addAll] takes: 2xx, and not a 206), each
    of them is stored in the static cache, so that a cache match for it
    succeeds, and skip-waiting is called.  When some manifest fetch is
    rejected or its response is not taken, nothing is stored, skip-waiting
    is not called, and the failure is logged as an error. *)
Theorem install_all_or_nothing (cs : CacheStorage) :
  let res := install self_origin net (start cs) in
  res.1 = Returned tt /\
  storage_has (caches res.2) STATIC_CACHE = true /\
  if manifest_precachable self_origin net
  then Forall (fun request =>
                 exists r, net request = Fulfilled r /\ ok r = true /\
                   storage_lookup (caches res.2) STATIC_CACHE (key_of request) = Some r /\
                   is_Some (match_in (caches res.2) request))
         (manifest_requests self_origin) /\
       existsb is_skipWaiting (trace res.2) = true /\
       existsb is_error (console res.2) = false
  else caches res.2 = storage_open cs STATIC_CACHE /\
       existsb is_skipWaiting (trace res.2) = false /\
       existsb is_error (console res.2) = true.
Proof.
  pose (s0 := {| caches := storage_open cs STATIC_CACHE;
                 trace := [EvOpen STATIC_CACHE];
                 console := [Log "Service Worker: Installing...";
                             Log "Service Worker: Pre-caching app shell"] |}).
  assert (Hhas : storage_has (caches s0) STATIC_CACHE = true) by apply storage_has_open.
  pose proof (cache_addAll_spec STATIC_CACHE STATIC_RESOURCES s0 Hhas) as Hadd.
  cbv zeta in Hadd. fold (manifest_requests self_origin) in Hadd.
  fold (manifest_precachable self_origin net) in Hadd.
  cbv zeta.
  assert (Hinstall : install self_origin net (start cs) =
    match cache_addAll self_origin net STATIC_CACHE STATIC_RESOURCES s0 with
    | (Returned _, s1) =>
        (Returned tt,
         emit EvSkipWaiting (print (Log "Service Worker: Skip waiting for activation") s1))
    | (Thrown e, s1) =>
        (Returned tt, print (Error ("Service Worker: Pre-caching failed " +:+ e)) s1)
    end).
  { unfold install, try_catch, mbind, M_bind, console_log, console_error, caches_open,
      skipWaiting.
    change (cache_addAll self_origin net STATIC_CACHE STATIC_RESOURCES _)
      with (cache_addAll self_origin net STATIC_CACHE STATIC_RESOURCES s0).
    destruct (cache_addAll self_origin net STATIC_CACHE STATIC_RESOURCES s0) as [[[]|e] s1];
      reflexivity. }
  rewrite Hinstall. clear Hinstall.
  destruct Hadd as (Hcon & Htr & Hhas' & Hadd).
  destruct (cache_addAll self_origin net STATIC_CACHE STATIC_RESOURCES s0) as [[[]|e] s1].
  - destruct (manifest_precachable self_origin net).
    + destruct Hadd as [_ Hall]. cbn [fst snd] in *.
      split; [reflexivity|]. split; [exact Hhas'|]. split; [|split].
      * apply List.Forall_forall. intros rq Hrq.
        destruct (proj1 (List.Forall_forall _ _) Hall rq Hrq) as (r & Hnet & Hacc & Hlook).
        exists r. repeat split; try assumption.
        -- unfold addAll_accepts in Hacc. destruct (ok r); [reflexivity | discriminate].
        -- assert (HGET : String.eqb (method rq) "GET" = true).
           { unfold manifest_requests in Hrq. apply in_map_iff in Hrq.
             destruct Hrq as (u & <- & _). reflexivity. }
           rewrite (match_in_GET _ _ HGET). apply (storage_lookup_match _ _ _ _ Hlook).
      * unfold emit, print. simpl. rewrite existsb_app. simpl. apply orb_true_r.
      * unfold emit, print. simpl. rewrite existsb_app, Hcon. reflexivity.
    + destruct Hadd as [[e He] _]. discriminate.
  - destruct (manifest_precachable self_origin net).
    + destruct Hadd as [Hret _]. discriminate.
    + destruct Hadd as [_ Hcs]. cbn [fst snd] in *.
      split; [reflexivity|]. split; [exact Hhas'|]. split; [exact Hcs|]. split.
      * unfold print. simpl. rewrite Htr. reflexivity.
      * unfold print. simpl. rewrite existsb_app. simpl. apply orb_true_r.
Qed.

End InstallTheorems.

(** C5, as stated, fails: with a single manifest URL unreachable (the other
    eleven answer 200) installation completes, but no manifest URL is in the
    static cache, a cache match for the start page misses, and skip-waiting
    has not been called. *)
Lemma install_with_one_unreachable_url :
  let net := Sample.without "https://cdn.jsdelivr.net/npm/sortablejs@latest/Sortable.min.js"
               Sample.fresh in
  let res := install Sample.site net (start []) in
  length (List.filter (precachable net) (manifest_requests Sample.site)) = 11%nat /\
  manifest_precachable Sample.site net = false /\
  res.1 = Returned tt /\
  caches res.2 = [(STATIC_CACHE, ∅)] /\
  forallb (fun request => bool_decide (match_in (caches res.2) request = None))
    (manifest_requests Sample.site) = true /\
  match_in (caches res.2) (new_Request "https://learn.example/") = None /\
  existsb is_skipWaiting (trace res.2) = false /\
  existsb is_error (console res.2) = true.
Proof.
  vm_compute. repeat split; reflexivity.
Qed.

(** A manifest URL answered 206 fails the installation in the same way. *)
Example install_with_a_partial_response :
  let net := fun request =>
               if String.eqb (url request) "https://learn.example/static/js/main.js"
               then Fulfilled Sample.partial else Fulfilled Sample.fresh in
  let res := install Sample.site net (start []) in
  forallb (fun request => match net request with Fulfilled r => ok r | Rejected _ => false end)
    (manifest_requests Sample.site) = true /\
  caches res.2 = [(STATIC_CACHE, ∅)] /\
  existsb is_skipWaiting (trace res.2) = false /\
  existsb is_error (console res.2) = true.
Proof.
  vm_compute. repeat split; reflexivity.
Qed.

(** ** The shape of every handled request *)

Lemma storage_lookup_open (cs : CacheStorage) (name name' key : string) :
  storage_lookup (storage_open cs name) name' key = storage_lookup cs name' key.
Proof.
  unfold storage_lookup. destruct (decide (name = name')) as [<-|Hne].
  - rewrite storage_get_open_eq. destruct (storage_get cs name); [reflexivity|].
    apply lookup_empty.
  - rewrite storage_get_open_ne by done. reflexivity.
Qed.

(** Whatever the strategy, a run of [handleRequest] from the storage [cs] is
    one of four: a cache hit before any fetch (static only); a 2xx response
    returned after the strategy's cache was opened and the put issued, which
    stores it if the put goes through; a non-2xx response returned with
    nothing else done; a rejected fetch answered from the caches or by a
    synthesized response. *)
Lemma handleRequest_cases (self_origin : string) (net : Request -> FetchOutcome)
    (request : Request) (cs : CacheStorage) :
  let u := URL_parse (url request) in
  let own := cache_of (classify self_origin request u) in
  let res := handleRequest self_origin net request u (start cs) in
  (classify self_origin request u = STATIC /\
   exists cached, match_in cs request = Some cached /\
     res.1 = Returned cached /\ caches res.2 = cs /\
     trace res.2 = [EvMatch (url request)])
  \/
  (exists r pre, net request = Fulfilled r /\ ok r = true /\
     res.1 = Returned r /\
     caches res.2 = (if put_accepts request r
                     then storage_put (storage_open cs own) own (key_of request) r
                     else storage_open cs own) /\
     trace res.2 = (pre ++ [EvFetch request; EvOpen own; EvPut own (url request) r])%list /\
     (pre = [] \/ pre = [EvMatch (url request)] /\ match_in cs request = None))
  \/
  (exists r pre, net request = Fulfilled r /\ ok r = false /\
     res.1 = Returned r /\ caches res.2 = cs /\
     trace res.2 = (pre ++ [EvFetch request])%list /\
     (pre = [] \/ pre = [EvMatch (url request)] /\ match_in cs request = None))
  \/
  (exists e resp, net request = Rejected e /\
     res.1 = Returned resp /\ caches res.2 = cs /\
     Forall (fun ev => ev = EvFetch request \/ ev = EvMatch (url request)) (trace res.2) /\
     In (EvMatch (url request)) (trace res.2) /\
     match match_in cs request with
     | Some cached => resp = cached
     | None => type resp = Default
     end).
Proof.
  intros u own res. subst res own. unfold handleRequest.
  destruct (classify self_origin request u) eqn:Hclass; simpl cache_of;
    [unfold handleStaticResource | unfold handleApiRequest
     | unfold handleNavigationRequest | unfold handleDynamicResource];
    run_handler.
  - destruct (match_in cs request) as [cached|] eqn:Hmatch; simpl.
    { left. split; [reflexivity|]. exists cached. repeat split. }
    right. destruct (net request) as [r|e] eqn:Hnet; simpl.
    + destruct (ok r) eqn:Hok; simpl.
      * left. exists r, [EvMatch (url request)].
        destruct (put_accepts request r); close_case.
      * right. left. exists r, [EvMatch (url request)]. close_case.
    + right. right. eexists e, _. close_case.
  - right. destruct (net request) as [r|e] eqn:Hnet; simpl.
    + destruct (ok r) eqn:Hok; simpl.
      * left. exists r, []. destruct (put_accepts request r); close_case.
      * right. left. exists r, []. close_case.
    + right. right. destruct (match_in cs request) as [cached|] eqn:Hmatch;
        simpl; eexists e, _; close_case.
  - right. destruct (net request) as [r|e] eqn:Hnet; simpl.
    + destruct (ok r) eqn:Hok; simpl.
      * left. exists r, []. destruct (put_accepts request r); close_case.
      * right. left. exists r, []. close_case.
    + right. right. destruct (match_in cs request) as [cached|] eqn:Hmatch;
        simpl; eexists e, _; close_case.
  - right. destruct (net request) as [r|e] eqn:Hnet; simpl.
    + destruct (ok r) eqn:Hok; simpl.
      * left. exists r, []. destruct (put_accepts request r); close_case.
      * right. left. exists r, []. close_case.
    + right. right. destruct (match_in cs request) as [cached|] eqn:Hmatch;
        simpl; eexists e, _; close_case.
Qed.

(** ** What is stored *)

(** C6, as stated, fails: a 2xx response of type cors, fetched from the CDN
    for a cross-origin request, is stored in the static cache although its
    type is not basic. *)
Lemma cross_origin_response_is_stored :
  let u := URL_parse (url Sample.bootstrap) in
  let res := handleRequest Sample.site (Sample.online Sample.from_cdn) Sample.bootstrap u
               (start []) in
  method Sample.bootstrap = "GET" /\
  classify Sample.site Sample.bootstrap u = STATIC /\
  ok Sample.from_cdn = true /\
  type Sample.from_cdn = Cors /\
  type Sample.from_cdn <> Basic /\
  storage_lookup (caches res.2) STATIC_CACHE (key_of Sample.bootstrap) = Some Sample.from_cdn.
Proof.
  vm_compute. repeat split; try reflexivity. discriminate.
Qed.

(** C6 (amended): whatever the strategy, every put a handler issues is for a
    2xx response, of whatever type, that the network has just given for the
    request; when the put goes through, the entry read back afterwards is
    that whole response, and when it is refused the entry under the key is
    what it was.  So each entry of the storage after the run is either an
    entry that was there before, unchanged, or the complete 2xx network
    response. *)
Theorem only_ok_responses_are_stored (self_origin : string) (net : Request -> FetchOutcome)
    (request : Request) (cs : CacheStorage) :
  let res := handleRequest self_origin net request (URL_parse (url request)) (start cs) in
  Forall (fun ev =>
            match ev with
            | EvPut name key r =>
                ok r = true /\ net request = Fulfilled r /\
                storage_lookup (caches res.2) name (cache_key key) =
                  if put_accepts request r then Some r
                  else storage_lookup cs name (cache_key key)
            | _ => True
            end) (trace res.2) /\
  forall (name key : string) (r : Response),
    storage_lookup (caches res.2) name key = Some r ->
    storage_lookup cs name key = Some r \/
    (ok r = true /\ net request = Fulfilled r /\ put_accepts request r = true).
Proof.
  cbv zeta.
  destruct (handleRequest_cases self_origin net request cs)
    as [(_ & cached & _ & _ & Hcs & Htr)
       |[(r & pre & Hnet & Hok & _ & Hcs & Htr & Hpre)
       |[(r & pre & Hnet & Hok & _ & Hcs & Htr & Hpre)
        |(e & resp & Hnet & _ & Hcs & Htr & _)]]];
    rewrite ?Hcs, ?Htr.
  - split; [repeat constructor | auto].
  - destruct (put_accepts request r) eqn:Hput; split.
    + apply Forall_app. split.
      * destruct Hpre as [->|[-> _]]; repeat constructor.
      * repeat constructor; try assumption. rewrite Hput.
        rewrite storage_lookup_store, decide_True by done. reflexivity.
    + intros name key r0. rewrite storage_lookup_store. case_decide; [|auto].
      intros [= <-]. right. repeat split; assumption.
    + apply Forall_app. split.
      * destruct Hpre as [->|[-> _]]; repeat constructor.
      * repeat constructor; try assumption. rewrite Hput. apply storage_lookup_open.
    + intros name key r0. rewrite storage_lookup_open. auto.
  - split; [|auto]. apply Forall_app. split; [|repeat constructor].
    destruct Hpre as [->|[-> _]]; repeat constructor.
  - split; [|auto]. eapply List.Forall_impl; [|exact Htr].
    intros ev [->| ->]; exact I.
Qed.

Lemma only_ok_responses_are_stored_witness :
  let cs := Sample.holding API_CACHE (url Sample.progress) Sample.stale in
  storage_lookup cs API_CACHE (url Sample.progress) = Some Sample.fresh \/
  (ok Sample.fresh = true /\
   Sample.online Sample.fresh Sample.progress = Fulfilled Sample.fresh /\
   put_accepts Sample.progress Sample.fresh = true).
Proof.
  apply (proj2 (only_ok_responses_are_stored Sample.site (Sample.online Sample.fresh)
                  Sample.progress
                  (Sample.holding API_CACHE (url Sample.progress) Sample.stale))
           API_CACHE (url Sample.progress) Sample.fresh).
  vm_compute. reflexivity.
Defined.

(** ** Where reads and writes go *)

(** C7, as stated, fails: offline, a request classified STATIC is answered
    from the cache of an earlier version, which is none of the static
    strategy's own; the static cache of the running version has no entry for
    the request (it does not even exist). *)
Lemma static_request_served_from_other_cache :
  let u := URL_parse (url Sample.style) in
  let cs := Sample.holding "tutorial-platform-static-v1" (url Sample.style) Sample.stale in
  let res := handleRequest Sample.site Sample.offline Sample.style u (start cs) in
  classify Sample.site Sample.style u = STATIC /\
  cache_of STATIC = "tutorial-platform-static-v2" /\
  storage_get cs (cache_of STATIC) = None /\
  storage_lookup cs (cache_of STATIC) (key_of Sample.style) = None /\
  storage_lookup cs "tutorial-platform-static-v1" (key_of Sample.style) = Some Sample.stale /\
  res.1 = Returned Sample.stale.
Proof.
  vm_compute. repeat split; reflexivity.
Qed.

(** C7 (amended): every cache read of a handler is [caches.match] on the
    request itself: it finds an entry held under the request's URL without
    its fragment, and under no other key, by any cache of the storage, the
    first in creation order, and an entry found is what the handler returns.
    Every write goes to the strategy's own cache and under the request's
    key: the other caches are left as they were, and so is, in the
    strategy's cache, the entry of every URL with another key. *)
Theorem reads_any_cache_writes_own_cache (self_origin : string)
    (net : Request -> FetchOutcome) (request : Request) (cs : CacheStorage) :
  let own := cache_of (classify self_origin request (URL_parse (url request))) in
  let res := handleRequest self_origin net request (URL_parse (url request)) (start cs) in
  Forall (fun ev =>
            match ev with
            | EvMatch key => key = url request
            | EvOpen name => name = own
            | EvPut name key _ => name = own /\ key = url request
            | _ => True
            end) (trace res.2) /\
  (forall cached : Response,
     In (EvMatch (url request)) (trace res.2) ->
     match_in cs request = Some cached ->
     res.1 = Returned cached /\
     exists name c, In (name, c) cs /\ c !! key_of request = Some cached) /\
  (forall name : string,
     name <> own -> storage_get (caches res.2) name = storage_get cs name) /\
  (forall u : string,
     cache_key u <> key_of request ->
     storage_lookup (caches res.2) own (cache_key u) = storage_lookup cs own (cache_key u)).
Proof.
  cbv zeta.
  destruct (handleRequest_cases self_origin net request cs)
    as [(_ & cached & Hhit & Hret & Hcs & Htr)
       |[(r & pre & Hnet & Hok & Hret & Hcs & Htr & Hpre)
       |[(r & pre & Hnet & Hok & Hret & Hcs & Htr & Hpre)
        |(e & resp & Hnet & Hret & Hcs & Htr & _ & Hresp)]]];
    rewrite ?Hcs, ?Htr.
  - split; [repeat constructor|]. split; [|auto].
    intros cached' _ Hm. split; [congruence|].
    apply storage_match_Some. apply (match_in_Some _ _ _ Hm).
  - split; [|split; [|split]].
    + apply Forall_app. split; [|repeat constructor].
      destruct Hpre as [->|[-> _]]; repeat constructor.
    + intros cached Hin Hm. exfalso. destruct Hpre as [->|[-> Hmiss]]; [|congruence].
      simpl in Hin. destruct Hin as [H|[H|[H|[]]]]; discriminate.
    + intros name Hne. destruct (put_accepts request r).
      * rewrite storage_get_put_ne, storage_get_open_ne by done. reflexivity.
      * rewrite storage_get_open_ne by done. reflexivity.
    + intros key Hne. destruct (put_accepts request r).
      * rewrite storage_lookup_store.
        rewrite decide_False by (intros [_ ?]; done). reflexivity.
      * apply storage_lookup_open.
  - split; [|split; [|auto]].
    + apply Forall_app. split; [|repeat constructor].
      destruct Hpre as [->|[-> _]]; repeat constructor.
    + intros cached Hin Hm. exfalso. destruct Hpre as [->|[-> Hmiss]]; [|congruence].
      simpl in Hin. destruct Hin as [H|[]]. discriminate.
  - split; [|split; [|auto]].
    + eapply List.Forall_impl; [|exact Htr]. intros ev [->| ->]; [exact I | reflexivity].
    + intros cached _ Hm. rewrite Hm in Hresp. subst resp.
      split; [exact Hret|]. apply storage_match_Some. apply (match_in_Some _ _ _ Hm).
Qed.

Lemma reads_any_cache_writes_own_cache_witness :
  (handleRequest Sample.site Sample.offline Sample.style (URL_parse (url Sample.style))
     (start (Sample.holding "tutorial-platform-static-v1" (url Sample.style) Sample.stale))).1
  = Returned Sample.stale.
Proof.
  refine (proj1 (proj1 (proj2 (reads_any_cache_writes_own_cache Sample.site Sample.offline
                   Sample.style
                   (Sample.holding "tutorial-platform-static-v1" (url Sample.style)
                      Sample.stale)))
            Sample.stale _ _)).
  - vm_compute. left. reflexivity.
  - vm_compute. reflexivity.
Defined.

(** A put replaces the entry of a URL that differs in the fragment only. *)
Example put_replaces_modulo_fragment :
  let part2 := {| method := "GET"; url := "https://learn.example/module/1#part2";
                  mode := "navigate"; headers := [("accept", "text/html")] |} in
  let cs := Sample.holding DYNAMIC_CACHE "https://learn.example/module/1" Sample.stale in
  let res := handleRequest Sample.site (Sample.online Sample.fresh) part2
               (URL_parse (url part2)) (start cs) in
  caches res.2 = Sample.holding DYNAMIC_CACHE "https://learn.example/module/1" Sample.fresh.
Proof. vm_compute. reflexivity. Qed.

(** ** Requests the worker leaves alone *)

(** C8: a request whose method is not GET is not answered by the worker: the
    listener returns without responding, the page gets what the network
    gives for the request itself, and the worker's state is what it was: no
    cache is read, nothing is stored. *)
Theorem non_GET_passes_through (self_origin : string) (net : Request -> FetchOutcome)
    (request : Request) (s : SW) :
  method request <> "GET" ->
  onfetch self_origin net request = None /\
  page_fetch self_origin net request s = (net request, s) /\
  caches (page_fetch self_origin net request s).2 = caches s /\
  trace (page_fetch self_origin net request s).2 = trace s.
Proof.
  intros Hmethod. apply String.eqb_neq in Hmethod.
  assert (Hnone : onfetch self_origin net request = None).
  { unfold onfetch. rewrite Hmethod. reflexivity. }
  unfold page_fetch. rewrite Hnone. repeat split.
Qed.

Lemma non_GET_passes_through_witness :
  let s := start (Sample.holding API_CACHE (url Sample.save_progress) Sample.stale) in
  page_fetch Sample.site (Sample.online Sample.fresh) Sample.save_progress s
  = (Fulfilled Sample.fresh, s).
Proof.
  refine (proj1 (proj2 (non_GET_passes_through Sample.site (Sample.online Sample.fresh)
                          Sample.save_progress _ _))).
  discriminate.
Defined.

(** ** Every answered request gets a response *)

(** C9: when the listener answers a request, its handler returns a response
    from every state and whatever the network does: it never throws, so the
    page's fetch is fulfilled.  A rejected fetch is recovered by the cache
    lookup, whose entry is the answer when there is one, and else by the
    strategy's own fallback (the 503 text, the 503 JSON error, the offline
    page), the storage being left as it was; a fulfilled fetch is the answer
    itself, unless a static request was already answered from a cache. *)
Theorem handler_always_responds (self_origin : string) (net : Request -> FetchOutcome)
    (request : Request) (handler : M Response) (s : SW) :
  onfetch self_origin net request = Some handler ->
  exists (r : Response) (s' : SW),
    handler s = (Returned r, s') /\
    page_fetch self_origin net request s = (Fulfilled r, s') /\
    match net request with
    | Fulfilled live =>
        match classify self_origin request (URL_parse (url request)),
              match_in (caches s) request with
        | STATIC, Some cached => r = cached
        | _, _ => r = live
        end
    | Rejected _ =>
        caches s' = caches s /\
        match match_in (caches s) request with
        | Some cached => r = cached
        | None =>
            match classify self_origin request (URL_parse (url request)) with
            | STATIC =>
                r = new_Response "Resource not available offline" 503
                      "Service Unavailable" []
            | API =>
                r = new_Response (JSON_stringify_obj1 "error" "Offline - data not available")
                      503 "" [("content-type", "application/json")]
            | NAVIGATION => r = createOfflinePage
            | DYNAMIC => r = new_Response "Content not available offline" 503 "" []
            end
        end
    end.
Proof.
  intros Hon.
  assert (Hh : handler = handleRequest self_origin net request (URL_parse (url request))).
  { unfold onfetch in Hon.
    destruct (negb (String.eqb (method request) "GET")
              || String.eqb (protocol (URL_parse (url request))) "chrome-extension:");
      [discriminate | congruence]. }
  unfold page_fetch. rewrite Hon. subst handler. unfold handleRequest.
  destruct (classify self_origin request (URL_parse (url request)));
    [unfold handleStaticResource | unfold handleApiRequest
     | unfold handleNavigationRequest | unfold handleDynamicResource];
    run_handler;
    destruct (match_in (caches s) request) as [cached|] eqn:Hmatch; simpl;
    destruct (net request) as [live|e]; simpl;
    try (destruct (ok live); simpl; try destruct (put_accepts request live); simpl);
    rewrite ?Hmatch; simpl;
    eexists _, _; repeat split.
Qed.

Lemma handler_always_responds_witness :
  exists (r : Response) (s' : SW),
    page_fetch Sample.site Sample.offline Sample.feed (start []) = (Fulfilled r, s').
Proof.
  destruct (handler_always_responds Sample.site Sample.offline Sample.feed
              (handleRequest Sample.site Sample.offline Sample.feed
                 (URL_parse (url Sample.feed)))
              (start []) eq_refl) as (r & s' & _ & H & _).
  exists r, s'. exact H.
Defined.

(** ** Non-2xx responses *)

(** The network-first strategies always go to the network. *)
Lemma network_first_fetches (self_origin : string) (net : Request -> FetchOutcome)
    (request : Request) (cs : CacheStorage) :
  classify self_origin request (URL_parse (url request)) <> STATIC ->
  hd_error (trace (handleRequest self_origin net request (URL_parse (url request))
                     (start cs)).2) = Some (EvFetch request).
Proof.
  intros Hclass. unfold handleRequest.
  destruct (classify self_origin request (URL_parse (url request)));
    [contradiction | unfold handleApiRequest | unfold handleNavigationRequest
     | unfold handleDynamicResource];
    run_handler; destruct (net request) as [r|e]; simpl;
    try (destruct (ok r); simpl; try destruct (put_accepts request r); simpl);
    try destruct (match_in cs request); reflexivity.
Qed.

(** C10: when the fetch of an answered request is fulfilled with a non-2xx
    response, under every strategy that response is what the handler
    returns.  The handler has fetched it (a static request only after its
    cache lookup missed, the others first thing), the fetch is the last
    thing it does, so that no cache lookup and no synthesized response
    follows it, nothing is opened or put, and the storage is left as it
    was. *)
Theorem non_2xx_is_returned_unchanged (self_origin : string)
    (net : Request -> FetchOutcome) (request : Request) (handler : M Response)
    (cs : CacheStorage) (r : Response) :
  onfetch self_origin net request = Some handler ->
  net request = Fulfilled r ->
  ok r = false ->
  classify self_origin request (URL_parse (url request)) <> STATIC \/
    match_in cs request = None ->
  (handler (start cs)).1 = Returned r /\
  page_fetch self_origin net request (start cs) = (Fulfilled r, (handler (start cs)).2) /\
  caches (handler (start cs)).2 = cs /\
  trace (handler (start cs)).2 =
    match classify self_origin request (URL_parse (url request)) with
    | STATIC => [EvMatch (url request); EvFetch request]
    | _ => [EvFetch request]
    end /\
  console (handler (start cs)).2 = [].
Proof.
  intros Hon Hnet Hok Hfetch.
  assert (Hh : handler = handleRequest self_origin net request (URL_parse (url request))).
  { unfold onfetch in Hon.
    destruct (negb (String.eqb (method request) "GET")
              || String.eqb (protocol (URL_parse (url request))) "chrome-extension:");
      [discriminate | congruence]. }
  unfold page_fetch. rewrite Hon. subst handler. revert Hfetch. unfold handleRequest.
  destruct (classify self_origin request (URL_parse (url request)));
    [unfold handleStaticResource | unfold handleApiRequest
     | unfold handleNavigationRequest | unfold handleDynamicResource];
    run_handler; intros Hfetch.
  - destruct Hfetch as [Hne|Hmiss]; [contradiction|]. rewrite Hmiss. simpl.
    rewrite Hnet. simpl. rewrite Hok. simpl. repeat split.
  - rewrite Hnet. simpl. rewrite Hok. simpl. repeat split.
  - rewrite Hnet. simpl. rewrite Hok. simpl. repeat split.
  - rewrite Hnet. simpl. rewrite Hok. simpl. repeat split.
Qed.

Lemma non_2xx_is_returned_unchanged_witness :
  (handleRequest Sample.site (Sample.online Sample.server_error) Sample.progress
     (URL_parse (url Sample.progress))
     (start (Sample.holding API_CACHE (url Sample.progress) Sample.stale))).1
  = Returned Sample.server_error.
Proof.
  refine (proj1 (non_2xx_is_returned_unchanged Sample.site (Sample.online Sample.server_error)
                   Sample.progress _
                   (Sample.holding API_CACHE (url Sample.progress) Sample.stale)
                   Sample.server_error eq_refl eq_refl eq_refl _)).
  left. discriminate.
Defined.

(** ** Scenarios *)

(** An API response fetched online is what the same request gets once the
    network is down, with its original status. *)
Example api_online_then_offline :
  let u := URL_parse (url Sample.progress) in
  let first := handleRequest Sample.site (Sample.online Sample.fresh) Sample.progress u
                 (start []) in
  let second := handleRequest Sample.site Sample.offline Sample.progress u
                  (start (caches first.2)) in
  first.1 = Returned Sample.fresh /\
  second.1 = Returned Sample.fresh /\
  trace second.2 = [EvFetch Sample.progress; EvMatch (url Sample.progress)].
Proof. vm_compute. repeat split; reflexivity. Qed.

(** After an installation on a working network, a manifest resource is
    served offline from the pre-populated cache, without a fetch. *)
Example install_then_offline :
  let installed := install Sample.site (Sample.online Sample.fresh) (start []) in
  let res := handleRequest Sample.site Sample.offline Sample.style
               (URL_parse (url Sample.style)) (start (caches installed.2)) in
  installed.1 = Returned tt /\
  existsb is_skipWaiting (trace installed.2) = true /\
  res.1 = Returned Sample.fresh /\
  trace res.2 = [EvMatch (url Sample.style)].
Proof. vm_compute. repeat split; reflexivity. Qed.

(** A navigation to the start page is classified STATIC, its path being in
    the manifest; a navigation elsewhere on the site is NAVIGATION. *)
Example classify_navigations :
  let home := {| method := "GET"; url := "https://learn.example/"; mode := "navigate";
                 headers := [("accept", "text/html")] |} in
  classify Sample.site home (URL_parse (url home)) = STATIC /\
  classify Sample.site Sample.lesson (URL_parse (url Sample.lesson)) = NAVIGATION /\
  classify Sample.site Sample.feed (URL_parse (url Sample.feed)) = DYNAMIC /\
  classify Sample.site Sample.bootstrap (URL_parse (url Sample.bootstrap)) = STATIC.
Proof. vm_compute. repeat split; reflexivity. Qed.

(** * Further properties of the worker *)

(** ** Which requests the worker answers, and how it classifies them *)

Lemma prefix_api_not_static (p : string) :
  startsWith p "/api/" = true ->
  Array_includes STATIC_RESOURCES p = false /\ startsWith p "/static/" = false.
Proof.
  unfold startsWith. intros H.
  destruct p as [|c1 p]; cbn [String.prefix] in H; [discriminate|].
  destruct (ascii_dec "/" c1) as [<-|]; [|discriminate].
  destruct p as [|c2 p]; cbn [String.prefix] in H; [discriminate|].
  destruct (ascii_dec "a" c2) as [<-|]; [|discriminate].
  split; reflexivity.
Qed.

(** The cache a handler opens is decided by the URL, not by the rest of the
    request. *)
Lemma cache_of_classify (self_origin : string) (request request' : Request) (u : URL) :
  cache_of (classify self_origin request u) = cache_of (classify self_origin request' u).
Proof.
  unfold classify.
  destruct (Array_includes STATIC_RESOURCES (pathname u) || startsWith (pathname u) "/static/"
            || negb (String.eqb (origin u) self_origin)); [reflexivity|].
  destruct (startsWith (pathname u) "/api/"); [reflexivity|].
  destruct (String.eqb (mode request) "navigate" || accepts_html request),
    (String.eqb (mode request') "navigate" || accepts_html request'); reflexivity.
Qed.

Lemma break_at_twice (stop : ascii -> bool) (s : string) :
  fst (break_at stop (fst (break_at stop s))) = fst (break_at stop s).
Proof.
  induction s as [|c s IH]; simpl; [reflexivity|].
  destruct (stop c) eqn:E; simpl; [reflexivity|].
  destruct (break_at stop s) as [a b]. simpl in *. rewrite E.
  destruct (break_at stop a) as [a' b']. simpl in *. rewrite IH. reflexivity.
Qed.

Lemma cache_key_twice (u : string) : cache_key (cache_key u) = cache_key u.
Proof. apply break_at_twice. Qed.

(** The fragment plays no part in the scheme, origin and path of a URL. *)
Lemma URL_parse_cache_key (u : string) :
  protocol (URL_parse (cache_key u)) = protocol (URL_parse u) /\
  origin (URL_parse (cache_key u)) = origin (URL_parse u) /\
  pathname (URL_parse (cache_key u)) = pathname (URL_parse u).
Proof.
  unfold URL_parse. rewrite cache_key_twice.
  destruct (break_at is_colon (cache_key u)) as [scheme rest].
  destruct (String.prefix "//" (drop_string 1 rest)).
  - destruct (break_at ends_authority (drop_string 2 (drop_string 1 rest))) as [authority tail].
    destruct (break_at ends_path tail) as [path rest']. repeat split.
  - destruct (break_at ends_path (drop_string 1 rest)) as [path rest']. repeat split.
Qed.

Lemma classify_cache_key (self_origin : string) (request : Request) (u : string) :
  classify self_origin request (URL_parse (cache_key u))
  = classify self_origin request (URL_parse u).
Proof.
  destruct (URL_parse_cache_key u) as (_ & Ho & Hp). unfold classify. rewrite Ho, Hp.
  reflexivity.
Qed.

Lemma cache_of_classify_url (self_origin : string) (request : Request) :
  cache_of (classify self_origin request (URL_parse (url request)))
  = url_cache self_origin (key_of request).
Proof.
  unfold url_cache, key_of. rewrite classify_cache_key. apply cache_of_classify.
Qed.

(** Offline, an entry held under the request's key is what every strategy
    returns; the storage is not touched. *)
Lemma offline_serves_match (self_origin : string) (net : Request -> FetchOutcome)
    (request : Request) (cs : CacheStorage) (e : string) (cached : Response) :
  net request = Rejected e ->
  match_in cs request = Some cached ->
  (handleRequest self_origin net request (URL_parse (url request)) (start cs)).1
    = Returned cached /\
  caches (handleRequest self_origin net request (URL_parse (url request)) (start cs)).2 = cs.
Proof.
  intros Hnet Hm.
  destruct (handleRequest_cases self_origin net request cs)
    as [(_ & c & Hhit & Hret & Hcs & _)
       |[(r & pre & Hnet' & _)
       |[(r & pre & Hnet' & _)
        |(e' & resp & _ & Hret & Hcs & _ & _ & Hresp)]]]; try congruence.
  - split; [congruence | exact Hcs].
  - rewrite Hm in Hresp. subst resp. split; assumption.
Qed.

(** X1: a request whose URL has the chrome-extension scheme is left to the
    browser even when it is a GET: the listener does not respond, the page
    gets the network's own outcome and the worker's state is unchanged. *)
Theorem chrome_extension_passes_through (self_origin : string)
    (net : Request -> FetchOutcome) (request : Request) (s : SW) :
  protocol (URL_parse (url request)) = "chrome-extension:" ->
  onfetch self_origin net request = None /\
  page_fetch self_origin net request s = (net request, s).
Proof.
  intros Hproto.
  assert (Hnone : onfetch self_origin net request = None).
  { unfold onfetch. rewrite Hproto. simpl. rewrite orb_true_r. reflexivity. }
  split; [exact Hnone|]. unfold page_fetch. rewrite Hnone. reflexivity.
Qed.

Lemma chrome_extension_passes_through_witness :
  let request := Sample.get "chrome-extension://abcdefgh/popup.html" in
  let s := start (Sample.holding STATIC_CACHE (url request) Sample.stale) in
  page_fetch Sample.site Sample.offline request s = (Rejected "Failed to fetch", s).
Proof.
  refine (proj2 (chrome_extension_passes_through Sample.site Sample.offline
                   (Sample.get "chrome-extension://abcdefgh/popup.html") _ _)).
  reflexivity.
Defined.

(** X2: the URL alone decides whether a request is STATIC or API; the mode
    and the accept header only choose between NAVIGATION and DYNAMIC.  So
    two requests for one URL always write to the same cache. *)
Theorem url_decides_the_cache (self_origin : string) (request request' : Request) :
  url request = url request' ->
  let u := URL_parse (url request) in
  cache_of (classify self_origin request u) = cache_of (classify self_origin request' u) /\
  match classify self_origin request u with
  | STATIC => classify self_origin request' u = STATIC
  | API => classify self_origin request' u = API
  | NAVIGATION | DYNAMIC =>
      classify self_origin request' u = NAVIGATION \/
      classify self_origin request' u = DYNAMIC
  end.
Proof.
  intros _ u. split; [apply cache_of_classify|]. unfold classify.
  destruct (Array_includes STATIC_RESOURCES (pathname u) || startsWith (pathname u) "/static/"
            || negb (String.eqb (origin u) self_origin)); [reflexivity|].
  destruct (startsWith (pathname u) "/api/"); [reflexivity|].
  destruct (String.eqb (mode request) "navigate" || accepts_html request),
    (String.eqb (mode request') "navigate" || accepts_html request'); auto.
Qed.

Lemma url_decides_the_cache_witness :
  cache_of (classify Sample.site Sample.lesson (URL_parse (url Sample.lesson)))
  = cache_of (classify Sample.site (Sample.get (url Sample.lesson))
                (URL_parse (url Sample.lesson))).
Proof.
  exact (proj1 (url_decides_the_cache Sample.site Sample.lesson
                  (Sample.get (url Sample.lesson)) eq_refl)).
Defined.

(** X3: a request to another origin is handled cache first whatever its
    path, mode and headers; so a cross-origin navigation that fails offline
    with nothing cached under its URL (the fragment apart) gets the plain 503
    response, not the offline page. *)
Theorem cross_origin_is_static (self_origin : string) (net : Request -> FetchOutcome)
    (request : Request) (cs : CacheStorage) (e : string) :
  origin (URL_parse (url request)) <> self_origin ->
  net request = Rejected e ->
  match_in cs request = None ->
  let res := handleRequest self_origin net request (URL_parse (url request)) (start cs) in
  classify self_origin request (URL_parse (url request)) = STATIC /\
  exists resp, res.1 = Returned resp /\ status resp = 503 /\
    body resp = "Resource not available offline" /\ resp <> createOfflinePage.
Proof.
  intros Horigin Hnet Hmiss.
  assert (Hclass : classify self_origin request (URL_parse (url request)) = STATIC).
  { unfold classify. apply String.eqb_neq in Horigin. rewrite Horigin. simpl.
    rewrite orb_true_r. reflexivity. }
  split; [exact Hclass|]. unfold handleRequest. rewrite Hclass.
  unfold handleStaticResource. run_handler. rewrite Hmiss. simpl. rewrite Hnet. simpl.
  eexists. repeat split. discriminate.
Qed.

Lemma cross_origin_is_static_witness :
  classify Sample.site
    {| method := "GET"; url := "https://elsewhere.example/api/page"; mode := "navigate";
       headers := [("accept", "text/html")] |}
    (URL_parse "https://elsewhere.example/api/page") = STATIC.
Proof.
  refine (proj1 (cross_origin_is_static Sample.site Sample.offline
                   {| method := "GET"; url := "https://elsewhere.example/api/page";
                      mode := "navigate"; headers := [("accept", "text/html")] |}
                   [] "Failed to fetch" _ _ _)).
  - vm_compute. discriminate.
  - reflexivity.
  - reflexivity.
Defined.

(** X4: a same-origin request whose path starts with /api/ is an API request
    even when it is a navigation or accepts HTML; offline and with nothing
    cached under its URL (the fragment apart) it gets the JSON error, not the
    offline page. *)
Theorem api_path_is_api (self_origin : string) (net : Request -> FetchOutcome)
    (request : Request) (cs : CacheStorage) (e : string) :
  origin (URL_parse (url request)) = self_origin ->
  startsWith (pathname (URL_parse (url request))) "/api/" = true ->
  net request = Rejected e ->
  match_in cs request = None ->
  let res := handleRequest self_origin net request (URL_parse (url request)) (start cs) in
  classify self_origin request (URL_parse (url request)) = API /\
  exists resp, res.1 = Returned resp /\ status resp = 503 /\
    body resp = JSON_stringify_obj1 "error" "Offline - data not available" /\
    resp <> createOfflinePage.
Proof.
  intros Horigin Hapi Hnet Hmiss.
  assert (Hclass : classify self_origin request (URL_parse (url request)) = API).
  { unfold classify. destruct (prefix_api_not_static _ Hapi) as [Hman Hstatic].
    rewrite Hman, Hstatic, Hapi. apply String.eqb_eq in Horigin. rewrite Horigin.
    reflexivity. }
  split; [exact Hclass|]. unfold handleRequest. rewrite Hclass.
  unfold handleApiRequest. run_handler. rewrite Hnet. simpl. rewrite Hmiss. simpl.
  eexists. repeat split. discriminate.
Qed.

Lemma api_path_is_api_witness :
  classify Sample.site
    {| method := "GET"; url := "https://learn.example/api/progress"; mode := "navigate";
       headers := [("accept", "text/html")] |}
    (URL_parse "https://learn.example/api/progress") = API.
Proof.
  refine (proj1 (api_path_is_api Sample.site Sample.offline
                   {| method := "GET"; url := "https://learn.example/api/progress";
                      mode := "navigate"; headers := [("accept", "text/html")] |}
                   [] "Failed to fetch" _ _ _ _)); reflexivity.
Defined.

(** ** The remaining strategies *)

(** X5: the offline page is synthesized for navigations only.  When a handler
    returns it and it came neither from a cache nor from the network, the
    request is a same-origin navigation (by mode or by accept header) outside
    /static/, /api/ and the manifest, its fetch was rejected and no cache
    held it. *)
Theorem offline_page_only_for_navigations (self_origin : string)
    (net : Request -> FetchOutcome) (request : Request) (cs : CacheStorage) :
  (handleRequest self_origin net request (URL_parse (url request)) (start cs)).1
    = Returned createOfflinePage ->
  match_in cs request <> Some createOfflinePage ->
  net request <> Fulfilled createOfflinePage ->
  let u := URL_parse (url request) in
  classify self_origin request u = NAVIGATION /\
  (exists e, net request = Rejected e) /\
  match_in cs request = None /\
  origin u = self_origin /\
  Array_includes STATIC_RESOURCES (pathname u) = false /\
  startsWith (pathname u) "/static/" = false /\
  startsWith (pathname u) "/api/" = false /\
  (mode request = "navigate" \/ accepts_html request = true).
Proof.
  intros Hret Hcache Hnet u. subst u.
  assert (Hnav : classify self_origin request (URL_parse (url request)) = NAVIGATION /\
                 (exists e, net request = Rejected e) /\
                 match_in cs request = None).
  { revert Hret. unfold handleRequest.
    destruct (classify self_origin request (URL_parse (url request)));
      [unfold handleStaticResource | unfold handleApiRequest
       | unfold handleNavigationRequest | unfold handleDynamicResource];
      run_handler;
      destruct (match_in cs request) as [cached|] eqn:Hm; simpl;
      destruct (net request) as [r|e] eqn:Hn; simpl;
      try (destruct (ok r); simpl; try destruct (put_accepts request r); simpl);
      rewrite ?Hm; simpl; intros Hret;
      try congruence;
      try (exfalso; clear - Hret; vm_compute in Hret; discriminate Hret);
      repeat split; eauto. }
  destruct Hnav as (Hclass & Hrej & Hmiss). repeat split; try assumption;
    revert Hclass; unfold classify;
    destruct (Array_includes STATIC_RESOURCES (pathname (URL_parse (url request))));
    destruct (startsWith (pathname (URL_parse (url request))) "/static/");
    destruct (String.eqb (origin (URL_parse (url request))) self_origin) eqn:Ho;
    simpl; try discriminate;
    destruct (startsWith (pathname (URL_parse (url request))) "/api/");
    try discriminate; try reflexivity.
  - intros _. apply String.eqb_eq. exact Ho.
  - destruct (String.eqb (mode request) "navigate") eqn:Hmode; simpl.
    + intros _. left. apply String.eqb_eq. exact Hmode.
    + destruct (accepts_html request); [auto | discriminate].
Qed.

Lemma offline_page_only_for_navigations_witness :
  classify Sample.site Sample.lesson (URL_parse (url Sample.lesson)) = NAVIGATION.
Proof.
  refine (proj1 (offline_page_only_for_navigations Sample.site Sample.offline
                   Sample.lesson [] _ _ _)).
  - reflexivity.
  - discriminate.
  - discriminate.
Defined.

(** X6: the default strategy is network first on the dynamic cache.  A
    fulfilled fetch is returned as it is; when it is 2xx and the put goes
    through it is the entry of the dynamic cache under the request's key
    afterwards, and otherwise no entry changes.  A rejected fetch is answered
    with the entry some cache holds under the key, or else with a 503
    "Content not available offline" of type text/plain; nothing is written
    to the console. *)
Theorem dynamic_network_first (self_origin : string) (net : Request -> FetchOutcome)
    (request : Request) (cs : CacheStorage) :
  classify self_origin request (URL_parse (url request)) = DYNAMIC ->
  let res := handleRequest self_origin net request (URL_parse (url request)) (start cs) in
  hd_error (trace res.2) = Some (EvFetch request) /\
  console res.2 = [] /\
  match net request with
  | Fulfilled r =>
      res.1 = Returned r /\
      if ok r
      then if put_accepts request r
           then storage_lookup (caches res.2) DYNAMIC_CACHE (key_of request) = Some r
           else caches res.2 = storage_open cs DYNAMIC_CACHE
      else caches res.2 = cs
  | Rejected _ =>
      caches res.2 = cs /\
      match match_in cs request with
      | Some cached => res.1 = Returned cached
      | None =>
          exists resp, res.1 = Returned resp /\ status resp = 503 /\
            statusText resp = "" /\
            body resp = "Content not available offline" /\
            response_headers resp = [("content-type", "text/plain;charset=UTF-8")] /\
            type resp = Default
      end
  end.
Proof.
  intros Hclass. unfold handleRequest. rewrite Hclass. unfold handleDynamicResource.
  run_handler. destruct (net request) as [r|e]; simpl.
  - destruct (ok r) eqn:Hok; simpl; [|repeat split].
    destruct (put_accepts request r); simpl; repeat split.
    rewrite storage_lookup_store, decide_True by done. reflexivity.
  - destruct (match_in cs request); simpl; repeat split. eexists. repeat split.
Qed.

Lemma dynamic_network_first_witness :
  (handleRequest Sample.site Sample.offline Sample.feed (URL_parse (url Sample.feed))
     (start (Sample.holding DYNAMIC_CACHE (url Sample.feed) Sample.stale))).1
  = Returned Sample.stale.
Proof.
  assert (Hclass : classify Sample.site Sample.feed (URL_parse (url Sample.feed)) = DYNAMIC)
    by reflexivity.
  pose proof (dynamic_network_first Sample.site Sample.offline Sample.feed
                (Sample.holding DYNAMIC_CACHE (url Sample.feed) Sample.stale) Hclass) as H.
  simpl in H. destruct H as (_ & _ & _ & H). exact H.
Defined.

(** X7: a navigation goes to the network first.  A fulfilled fetch is
    returned as it is; when it is 2xx and the put goes through it is the
    entry of the dynamic cache under the request's key afterwards, and
    otherwise no entry changes.  When the fetch is rejected and some cache
    holds the page under the request's URL, the fragment apart, that entry is
    returned instead of the offline page and the storage is not touched. *)
Theorem navigation_network_first (self_origin : string) (net : Request -> FetchOutcome)
    (request : Request) (cs : CacheStorage) :
  classify self_origin request (URL_parse (url request)) = NAVIGATION ->
  let res := handleRequest self_origin net request (URL_parse (url request)) (start cs) in
  hd_error (trace res.2) = Some (EvFetch request) /\
  match net request with
  | Fulfilled r =>
      res.1 = Returned r /\ console res.2 = [] /\
      if ok r
      then if put_accepts request r
           then storage_lookup (caches res.2) DYNAMIC_CACHE (key_of request) = Some r
           else caches res.2 = storage_open cs DYNAMIC_CACHE
      else caches res.2 = cs
  | Rejected _ =>
      caches res.2 = cs /\
      console res.2 = [Log ("Navigation network failed, trying cache: " +:+ url request)] /\
      match match_in cs request with
      | Some cached => res.1 = Returned cached
      | None => res.1 = Returned createOfflinePage
      end
  end.
Proof.
  intros Hclass. unfold handleRequest. rewrite Hclass. unfold handleNavigationRequest.
  run_handler. destruct (net request) as [r|e]; simpl.
  - destruct (ok r) eqn:Hok; simpl; [|repeat split].
    destruct (put_accepts request r); simpl; repeat split.
    rewrite storage_lookup_store, decide_True by done. reflexivity.
  - destruct (match_in cs request); simpl; repeat split.
Qed.

Lemma navigation_network_first_witness :
  (handleRequest Sample.site Sample.offline Sample.lesson (URL_parse (url Sample.lesson))
     (start (Sample.holding DYNAMIC_CACHE (url Sample.lesson) Sample.stale))).1
  = Returned Sample.stale.
Proof.
  assert (Hclass : classify Sample.site Sample.lesson (URL_parse (url Sample.lesson))
                   = NAVIGATION) by reflexivity.
  pose proof (navigation_network_first Sample.site Sample.offline Sample.lesson
                (Sample.holding DYNAMIC_CACHE (url Sample.lesson) Sample.stale) Hclass) as H.
  simpl in H. destruct H as (_ & _ & _ & H). exact H.
Defined.

(** X8: when the fetch is rejected, no strategy writes anything: the storage
    is unchanged and no cache is opened or put to.  The answer is the entry
    some cache holds under the request's key; failing that it is a
    synthesized response, the offline page for a navigation and a 503
    otherwise. *)
Theorem rejected_fetch_writes_nothing (self_origin : string)
    (net : Request -> FetchOutcome) (request : Request) (cs : CacheStorage) (e : string) :
  net request = Rejected e ->
  let res := handleRequest self_origin net request (URL_parse (url request)) (start cs) in
  caches res.2 = cs /\
  existsb (fun ev => match ev with EvOpen _ | EvPut _ _ _ => true | _ => false end)
    (trace res.2) = false /\
  match match_in cs request with
  | Some cached => res.1 = Returned cached
  | None =>
      exists resp, res.1 = Returned resp /\ type resp = Default /\
        match classify self_origin request (URL_parse (url request)) with
        | NAVIGATION => resp = createOfflinePage
        | _ => status resp = 503 /\ ok resp = false
        end
  end.
Proof.
  intros Hnet. unfold handleRequest.
  destruct (classify self_origin request (URL_parse (url request)));
    [unfold handleStaticResource | unfold handleApiRequest
     | unfold handleNavigationRequest | unfold handleDynamicResource];
    run_handler; rewrite ?Hnet; simpl;
    destruct (match_in cs request) as [cached|]; simpl; rewrite ?Hnet; simpl;
    repeat split; eexists; repeat split.
Qed.

Lemma rejected_fetch_writes_nothing_witness :
  let cs := Sample.holding DYNAMIC_CACHE (url Sample.feed) Sample.stale in
  caches (handleRequest Sample.site Sample.offline Sample.feed (URL_parse (url Sample.feed))
            (start cs)).2 = cs.
Proof.
  exact (proj1 (rejected_fetch_writes_nothing Sample.site Sample.offline Sample.feed
                  (Sample.holding DYNAMIC_CACHE (url Sample.feed) Sample.stale)
                  "Failed to fetch" eq_refl)).
Defined.

(** ** Several requests in a row *)







(** X10: an entry in a cache created earlier shadows the write-through.  When
    the first cache of the storage is not the request's own and holds an
    entry under its key, a 2xx response stored for a network-first request
    is not what a later rejected fetch is answered with: [caches.match]
    finds the older entry first. *)
Theorem earlier_cache_shadows_fresh_response (self_origin : string)
    (net down : Request -> FetchOutcome) (request : Request)
    (other : string) (c : Cache) (rest : CacheStorage) (r old : Response) (e : string) :
  classify self_origin request (URL_parse (url request)) <> STATIC ->
  net request = Fulfilled r ->
  ok r = true ->
  put_accepts request r = true ->
  other <> url_cache self_origin (key_of request) ->
  c !! key_of request = Some old ->
  down request = Rejected e ->
  let cs' := caches (handleRequest self_origin net request (URL_parse (url request))
                       (start ((other, c) :: rest))).2 in
  storage_lookup cs' (url_cache self_origin (key_of request)) (key_of request) = Some r /\
  (handleRequest self_origin down request (URL_parse (url request)) (start cs')).1
    = Returned old.
Proof.
  intros Hclass Hnet Hok Hput Hother Hold Hdown cs'. subst cs'.
  destruct (handleRequest_cases self_origin net request ((other, c) :: rest))
    as [(Hst & _)
       |[(r' & pre & Hnet' & _ & _ & Hcs & _)
       |[(r' & pre & Hnet' & Hok' & _)
        |(e' & resp & Hnet' & _)]]]; try congruence.
  rewrite Hcs. rewrite cache_of_classify_url.
  assert (r' = r) by congruence. subst r'. rewrite Hput. split.
  - rewrite storage_lookup_store, decide_True by done. reflexivity.
  - apply (offline_serves_match self_origin down request _ e); [exact Hdown|].
    rewrite match_in_GET by (apply (put_accepts_GET _ _ Hput)).
    apply String.eqb_neq in Hother.
    unfold storage_open. destruct (storage_has _ _); simpl; rewrite Hother; simpl;
      rewrite Hold; reflexivity.
Qed.

Lemma earlier_cache_shadows_fresh_response_witness :
  let cs := Sample.holding "tutorial-platform-api-v1" (url Sample.progress) Sample.stale in
  let cs' := caches (handleRequest Sample.site (Sample.online Sample.fresh) Sample.progress
                       (URL_parse (url Sample.progress)) (start cs)).2 in
  (handleRequest Sample.site Sample.offline Sample.progress (URL_parse (url Sample.progress))
     (start cs')).1 = Returned Sample.stale.
Proof.
  refine (proj2 (earlier_cache_shadows_fresh_response Sample.site
                   (Sample.online Sample.fresh) Sample.offline Sample.progress
                   "tutorial-platform-api-v1" {[ url Sample.progress := Sample.stale ]} []
                   Sample.fresh Sample.stale "Failed to fetch" _ _ _ _ _ _ _));
    try reflexivity; discriminate.
Defined.

Lemma tidy_open (self_origin name : string) (cs : CacheStorage) :
  tidy self_origin cs -> tidy self_origin (storage_open cs name).
Proof.
  unfold tidy, storage_open. intros H. destruct (storage_has cs name); [exact H|].
  apply Forall_app. split; [exact H|]. constructor; [|constructor].
  intros key r. simpl. rewrite lookup_empty. discriminate.
Qed.

Lemma tidy_put (self_origin key : string) (r : Response) (cs : CacheStorage) :
  ok r = true ->
  tidy self_origin cs ->
  tidy self_origin (storage_put cs (url_cache self_origin key) key r).
Proof.
  unfold tidy. intros Hok. induction 1 as [|[n c] cs Hhd Htl IH]; simpl; [constructor|].
  destruct (String.eqb n (url_cache self_origin key)) eqn:E.
  - apply String.eqb_eq in E. constructor; [|exact Htl].
    intros key' r'. simpl. destruct (decide (key = key')) as [<-|Hne].
    + rewrite lookup_insert_eq. intros [= <-]. split; [exact E | exact Hok].
    + rewrite lookup_insert_ne by done. apply Hhd.
  - constructor; [exact Hhd | exact IH].
Qed.

Lemma tidy_only_in (self_origin key : string) (cs : CacheStorage) :
  tidy self_origin cs -> only_in (url_cache self_origin key) key cs = true.
Proof.
  unfold tidy, only_in. induction 1 as [|[n c] cs Hhd _ IH]; simpl; [reflexivity|].
  rewrite IH, andb_true_r. destruct (c !! key) as [r|] eqn:E; [|apply orb_true_r].
  destruct (Hhd key r E) as [Hn _]. simpl in Hn. subst n.
  rewrite String.eqb_refl. reflexivity.
Qed.

Lemma storage_lookup_held (cs : CacheStorage) (name key : string) (r : Response) :
  storage_lookup cs name key = Some r ->
  exists c, In (name, c) cs /\ c !! key = Some r.
Proof.
  unfold storage_lookup. induction cs as [|[n c] cs IH]; simpl; [discriminate|].
  destruct (String.eqb n name) eqn:E.
  - apply String.eqb_eq in E. subst n. intros H. exists c. split; [left; reflexivity | exact H].
  - intros H. destruct (IH H) as (c' & Hin & Hc). exists c'. split; [right|]; assumption.
Qed.

Lemma handleRequest_keeps_tidy (self_origin : string) (net : Request -> FetchOutcome)
    (request : Request) (cs : CacheStorage) :
  tidy self_origin cs ->
  tidy self_origin
    (caches (handleRequest self_origin net request (URL_parse (url request)) (start cs)).2).
Proof.
  intros Htidy.
  destruct (handleRequest_cases self_origin net request cs)
    as [(_ & cached & _ & _ & Hcs & _)
       |[(r & pre & _ & Hok & _ & Hcs & _)
       |[(r & pre & _ & _ & _ & Hcs & _)
        |(e & resp & _ & _ & Hcs & _)]]];
    rewrite Hcs; try exact Htidy.
  rewrite cache_of_classify_url. destruct (put_accepts request r).
  - apply tidy_put; [exact Hok|]. apply tidy_open. exact Htidy.
  - apply tidy_open. exact Htidy.
Qed.

Lemma page_fetch_keeps_tidy (self_origin : string) (net : Request -> FetchOutcome)
    (request : Request) (cs : CacheStorage) :
  tidy self_origin cs ->
  tidy self_origin (caches (page_fetch self_origin net request (start cs)).2).
Proof.
  intros Htidy. pose proof (handleRequest_keeps_tidy self_origin net request cs Htidy) as H.
  unfold page_fetch, onfetch.
  destruct (negb (String.eqb (method request) "GET")
            || String.eqb (protocol (URL_parse (url request))) "chrome-extension:");
    [exact Htidy|].
  destruct (handleRequest self_origin net request (URL_parse (url request)) (start cs))
    as [[resp|e] s']; exact H.
Qed.

(** X11: the storage stays tidy.  Starting from a storage in which every
    entry is a 2xx response sitting in the cache of its URL (the empty
    storage, for one), any sequence of fetch events, on whatever networks,
    leaves such a storage: no entry is ever written to another strategy's
    cache, none is a non-2xx response, and for every key no cache but its
    own holds it. *)
Theorem serve_keeps_storage_tidy (self_origin : string)
    (events : list ((Request -> FetchOutcome) * Request)) (cs : CacheStorage) :
  tidy self_origin cs ->
  tidy self_origin (serve self_origin events cs) /\
  (forall (name key : string) (r : Response),
     storage_lookup (serve self_origin events cs) name key = Some r ->
     name = url_cache self_origin key /\ ok r = true) /\
  (forall key : string,
     only_in (url_cache self_origin key) key (serve self_origin events cs) = true).
Proof.
  intros Htidy.
  assert (H : tidy self_origin (serve self_origin events cs)).
  { unfold serve. revert cs Htidy. induction events as [|[net request] events IH];
      intros cs Htidy; simpl; [exact Htidy|].
    apply IH. apply page_fetch_keeps_tidy. exact Htidy. }
  split; [exact H|]. split.
  - intros name key r Hlook. destruct (storage_lookup_held _ _ _ _ Hlook) as (c & Hin & Hc).
    unfold tidy in H. rewrite List.Forall_forall in H. apply (H (name, c) Hin key r Hc).
  - intros key. apply tidy_only_in. exact H.
Qed.

Lemma serve_keeps_storage_tidy_witness :
  tidy Sample.site
    (serve Sample.site
       [(Sample.online Sample.fresh, Sample.progress);
        (Sample.online Sample.server_error, Sample.lesson);
        (Sample.offline, Sample.style);
        (Sample.online Sample.from_cdn, Sample.bootstrap)] []).
Proof.
  refine (proj1 (serve_keeps_storage_tidy Sample.site _ [] _)). constructor.
Defined.

(** ** The life cycle *)

Lemma activate_caches (cs : CacheStorage) :
  (activate (start cs)).1 = Returned tt /\
  caches (activate (start cs)).2 = List.filter (fun nc => is_current nc.1) cs.
Proof.
  unfold activate. run_handler.
  pose proof (forEach_clear_old_cache (storage_keys cs)
                {| caches := cs; trace := [EvKeys];
                   console := [Log "Service Worker: Activating..."] |}) as [Hret Hc].
  destruct (forEach clear_old_cache (storage_keys cs) _) as [[[]|e] s1];
    simpl in *; [|discriminate].
  split; [reflexivity|]. rewrite Hc. apply List.filter_ext_in.
  intros [n c] Hin. simpl.
  replace (Array_includes (storage_keys cs) n) with true; [apply orb_false_r|].
  symmetry. unfold Array_includes, storage_keys. apply existsb_exists.
  exists n. split; [|apply String.eqb_refl].
  apply in_map_iff. exists (n, c). split; [reflexivity | exact Hin].
Qed.

Lemma filter_twice {A} (keep : A -> bool) (l : list A) :
  List.filter keep (List.filter keep l) = List.filter keep l.
Proof.
  induction l as [|x l IH]; simpl; [reflexivity|].
  destruct (keep x) eqn:E; simpl; [rewrite E, IH; reflexivity | exact IH].
Qed.

(** X12: activating twice is activating once, and what activation leaves is
    current caches only; so on a storage that holds current caches only it
    deletes nothing. *)
Theorem activate_is_idempotent (cs : CacheStorage) :
  let once := caches (activate (start cs)).2 in
  caches (activate (start once)).2 = once /\
  forallb is_current (storage_keys once) = true /\
  (if forallb is_current (storage_keys cs) then once = cs else once <> cs).
Proof.
  cbv zeta. destruct (activate_caches cs) as [_ Hcs].
  destruct (activate_caches (caches (activate (start cs)).2)) as [_ Hcs2].
  rewrite Hcs2, Hcs. clear. split; [apply filter_twice|]. split.
  - unfold storage_keys. induction cs as [|[n c] cs IH]; simpl; [reflexivity|].
    destruct (is_current n) eqn:E; simpl; [rewrite E|]; exact IH.
  - unfold storage_keys. induction cs as [|[n c] cs IH]; simpl; [reflexivity|].
    destruct (is_current n) eqn:E; simpl.
    + destruct (forallb is_current (map fst cs)); [congruence|].
      intros [= H]. contradiction.
    + intros H.
      assert (Hlen : (length (List.filter (fun nc => is_current nc.1) cs) <= length cs)%nat)
        by apply List.filter_length_le.
      rewrite H in Hlen. simpl in Hlen. lia.
Qed.

Section InstallFrame.

Variable self_origin : string.
Variable net : Request -> FetchOutcome.

(** What a batch of puts can change. *)
Lemma put_all_lookup (cache : string) (fetched : list (Request * Response)) (s : SW) :
  storage_has (caches s) cache = true ->
  forall name key : string,
    let before := storage_lookup (caches s) name key in
    let after :=
      storage_lookup (caches (forEach (fun p => batch_put cache p.1 p.2) fetched s).2)
        name key in
    (forall r, after = Some r ->
       before = Some r \/
       (name = cache /\ exists rq, In (rq, r) fetched /\ key_of rq = key)) /\
    (is_Some before -> is_Some after) /\
    (name <> cache \/ ~ In key (map (fun p => key_of p.1) fetched) -> after = before).
Proof.
  revert s. induction fetched as [|[rq r0] rest IH]; intros s Hhas name key; cbv zeta.
  - simpl. repeat split; auto.
  - pose (s1 := emit (EvPut cache (url rq) r0)
                  (set_caches (storage_put (caches s) cache (key_of rq) r0) s)).
    change (forEach (fun p => batch_put cache p.1 p.2) ((rq, r0) :: rest) s)
      with (forEach (fun p => batch_put cache p.1 p.2) rest s1).
    change (map (fun p => key_of p.1) ((rq, r0) :: rest))
      with (key_of rq :: map (fun p => key_of p.1) rest).
    assert (Hhas1 : storage_has (caches s1) cache = true)
      by (subst s1; simpl; rewrite storage_has_put; exact Hhas).
    destruct (IH s1 Hhas1 name key) as (Hnew & Hmono & Hframe).
    assert (Hs1 : storage_lookup (caches s1) name key =
                  if decide (cache = name /\ key_of rq = key) then Some r0
                  else storage_lookup (caches s) name key)
      by (subst s1; simpl; apply storage_lookup_put; exact Hhas).
    rewrite Hs1 in Hnew, Hmono, Hframe. repeat split.
    + intros r Hr. destruct (Hnew r Hr) as [Hold|(-> & rq' & Hin & Hk)].
      * case_decide as Hd; [|left; exact Hold].
        destruct Hd as [<- <-]. injection Hold as <-.
        right. split; [reflexivity|]. exists rq. split; [left|]; reflexivity.
      * right. split; [reflexivity|]. exists rq'. split; [right|]; assumption.
    + intros Hsome. apply Hmono. case_decide; [eauto | exact Hsome].
    + intros Hout. rewrite Hframe.
      * rewrite decide_False; [reflexivity|]. intros [<- <-].
        destruct Hout as [Hout|Hout]; apply Hout; [reflexivity | left; reflexivity].
      * destruct Hout as [Hout|Hout]; [left; exact Hout|].
        right. intros Hin. apply Hout. right. exact Hin.
Qed.

Lemma install_unfold (cs : CacheStorage) :
  let s0 := {| caches := storage_open cs STATIC_CACHE;
               trace := [EvOpen STATIC_CACHE];
               console := [Log "Service Worker: Installing...";
                           Log "Service Worker: Pre-caching app shell"] |} in
  (install self_origin net (start cs)).1 = Returned tt /\
  caches (install self_origin net (start cs)).2 =
    caches (cache_addAll self_origin net STATIC_CACHE STATIC_RESOURCES s0).2.
Proof.
  intros s0.
  unfold install, try_catch, mbind, M_bind, console_log, console_error, caches_open,
    skipWaiting.
  change (cache_addAll self_origin net STATIC_CACHE STATIC_RESOURCES _)
    with (cache_addAll self_origin net STATIC_CACHE STATIC_RESOURCES s0).
  destruct (cache_addAll self_origin net STATIC_CACHE STATIC_RESOURCES s0) as [[[]|e] s1];
    split; reflexivity.
Qed.

(** What [cache.addAll] can change. *)
Lemma cache_addAll_lookup (cache : string) (urls : list string) (s : SW) :
  storage_has (caches s) cache = true ->
  forall name key : string,
    let keys := map (fun u => cache_key (resolve self_origin u)) urls in
    let before := storage_lookup (caches s) name key in
    let after :=
      storage_lookup (caches (cache_addAll self_origin net cache urls s).2) name key in
    (forall r, after = Some r ->
       before = Some r \/
       (name = cache /\ addAll_accepts r = true /\
        exists u, In u urls /\ cache_key (resolve self_origin u) = key /\
          net (new_Request (resolve self_origin u)) = Fulfilled r)) /\
    (is_Some before -> is_Some after) /\
    (name <> cache \/ ~ In key keys -> after = before).
Proof.
  intros Hhas name key. cbv zeta. unfold cache_addAll.
  set (requests := map (fun u => new_Request (resolve self_origin u)) urls).
  destruct (forallb (fun request => is_http (protocol (URL_parse (url request)))) requests);
    [|unfold throw; simpl; auto].
  unfold mbind, M_bind.
  destruct (fetch_all_spec net requests s) as (Hc & _ & _ & Hres).
  destruct (fetch_all net requests s) as [[fetched|e] s1]; simpl in *;
    [|rewrite Hc; auto].
  destruct Hres as [Hmap Hall].
  destruct (forallb (fun p => addAll_accepts p.2) fetched) eqn:Hok;
    [|unfold throw; simpl; rewrite Hc; auto].
  destruct (distinct (map key_of requests)); [|unfold throw; simpl; rewrite Hc; auto].
  assert (Hhas1 : storage_has (caches s1) cache = true) by (rewrite Hc; exact Hhas).
  destruct (put_all_lookup cache fetched s1 Hhas1 name key) as (Hnew & Hmono & Hframe).
  rewrite Hc in Hnew, Hmono, Hframe.
  assert (Hkeys : map (fun p => key_of p.1) fetched =
                  map (fun u => cache_key (resolve self_origin u)) urls).
  { rewrite <- (map_map fst key_of), Hmap. unfold requests. rewrite map_map. reflexivity. }
  rewrite Hkeys in Hframe. repeat split; try assumption.
  intros r Hr. destruct (Hnew r Hr) as [Hold|(-> & rq & Hin & Hk)]; [left; exact Hold|].
  right. split; [reflexivity|]. split.
  { exact (proj1 (forallb_forall _ _) Hok _ Hin). }
  assert (Hrq : In rq requests)
    by (rewrite <- Hmap; apply in_map_iff; exists (rq, r); split; [reflexivity | exact Hin]).
  unfold requests in Hrq. apply in_map_iff in Hrq. destruct Hrq as (u & <- & Hu).
  exists u. repeat split; try assumption.
  exact (proj1 (List.Forall_forall _ _) Hall _ Hin).
Qed.

End InstallFrame.

(** X13: installation touches manifest entries of the static cache only.
    For every cache name and every URL, looked up under its key: an entry
    found after the installation was there before, or is the response just
    fetched for a manifest URL with that key, a 2xx response other than a
    206, and sits in the static cache; no entry is removed; and outside the
    static cache, or under a key that is not the key of a manifest URL, the
    lookup gives what it gave before. *)
Theorem install_touches_only_manifest_entries (self_origin : string)
    (net : Request -> FetchOutcome) (cs : CacheStorage) (name u : string) :
  let key := cache_key u in
  let keys := map key_of (manifest_requests self_origin) in
  let before := storage_lookup cs name key in
  let after := storage_lookup (caches (install self_origin net (start cs)).2) name key in
  (forall r, after = Some r ->
     before = Some r \/
     (name = STATIC_CACHE /\ ok r = true /\ status r <> 206 /\
      exists request, In request (manifest_requests self_origin) /\
        key_of request = key /\ net request = Fulfilled r)) /\
  (is_Some before -> is_Some after) /\
  (name <> STATIC_CACHE \/ ~ In key keys -> after = before).
Proof.
  cbv zeta. destruct (install_unfold self_origin net cs) as [_ Hcs]. rewrite Hcs.
  pose proof (cache_addAll_lookup self_origin net STATIC_CACHE STATIC_RESOURCES
                {| caches := storage_open cs STATIC_CACHE;
                   trace := [EvOpen STATIC_CACHE];
                   console := [Log "Service Worker: Installing...";
                               Log "Service Worker: Pre-caching app shell"] |}
                (storage_has_open cs STATIC_CACHE) name (cache_key u)) as H.
  cbv zeta in H. cbn [caches] in H. rewrite storage_lookup_open in H.
  destruct H as (Hnew & Hmono & Hframe). split; [|split; [exact Hmono|]].
  - intros r Hr. destruct (Hnew r Hr) as [Hold|(Hn & Hacc & u' & Hu & Hk & Hnet)];
      [left; exact Hold|].
    right. split; [exact Hn|]. unfold addAll_accepts in Hacc.
    apply andb_true_iff in Hacc. destruct Hacc as [Hacc _].
    apply andb_true_iff in Hacc. destruct Hacc as [Hok H206].
    repeat split; try assumption.
    + intros H. rewrite H in H206. discriminate.
    + exists (new_Request (resolve self_origin u')). repeat split; try assumption.
      unfold manifest_requests. apply in_map_iff. exists u'. split; [reflexivity | exact Hu].
  - intros Hout. apply Hframe. destruct Hout as [Hout|Hout]; [left; exact Hout|].
    right. unfold manifest_requests in Hout. rewrite map_map in Hout. exact Hout.
Qed.

Lemma install_touches_only_manifest_entries_witness :
  let cs := Sample.holding API_CACHE (url Sample.progress) Sample.stale in
  storage_lookup (caches (install Sample.site (Sample.online Sample.fresh) (start cs)).2)
    API_CACHE (cache_key (url Sample.progress))
  = storage_lookup cs API_CACHE (cache_key (url Sample.progress)).
Proof.
  refine (proj2 (proj2 (install_touches_only_manifest_entries Sample.site
                          (Sample.online Sample.fresh)
                          (Sample.holding API_CACHE (url Sample.progress) Sample.stale)
                          API_CACHE (url Sample.progress))) _).
  left. discriminate.
Defined.




(** ** Cache first means never refreshed *)

Lemma classify_STATIC_any (self_origin : string) (request request' : Request) (u : URL) :
  classify self_origin request u = STATIC -> classify self_origin request' u = STATIC.
Proof.
  unfold classify.
  destruct (Array_includes STATIC_RESOURCES (pathname u) || startsWith (pathname u) "/static/"
            || negb (String.eqb (origin u) self_origin)); [reflexivity|].
  destruct (startsWith (pathname u) "/api/"); [discriminate|].
  destruct (String.eqb (mode request) "navigate" || accepts_html request); discriminate.
Qed.

Lemma static_hit_writes_nothing (self_origin : string) (net : Request -> FetchOutcome)
    (request : Request) (cs : CacheStorage) (cached : Response) :
  classify self_origin request (URL_parse (url request)) = STATIC ->
  match_in cs request = Some cached ->
  caches (handleRequest self_origin net request (URL_parse (url request)) (start cs)).2 = cs.
Proof.
  intros Hclass Hm. unfold handleRequest. rewrite Hclass. unfold handleStaticResource.
  run_handler. rewrite Hm. reflexivity.
Qed.

Lemma storage_match_put_other (cs : CacheStorage) (name key key' : string) (r : Response) :
  key <> key' ->
  storage_match (storage_put cs name key r) key' = storage_match cs key'.
Proof.
  intros Hne. induction cs as [|[n c] cs IH]; simpl; [reflexivity|].
  destruct (String.eqb n name); simpl.
  - rewrite lookup_insert_ne by done. reflexivity.
  - rewrite IH. reflexivity.
Qed.

Lemma page_fetch_keeps_static_entry (self_origin : string) (net : Request -> FetchOutcome)
    (request : Request) (cs : CacheStorage) (key : string) (cached : Response) :
  classify self_origin (new_Request key) (URL_parse key) = STATIC ->
  storage_match cs (cache_key key) = Some cached ->
  storage_match (caches (page_fetch self_origin net request (start cs)).2) (cache_key key)
    = Some cached.
Proof.
  intros Hstatic Hm. unfold page_fetch, onfetch.
  destruct (String.eqb (method request) "GET") eqn:HGET; simpl; [|exact Hm].
  destruct (String.eqb (protocol (URL_parse (url request))) "chrome-extension:");
    [exact Hm|].
  assert (H : storage_match
                (caches (handleRequest self_origin net request (URL_parse (url request))
                           (start cs)).2) (cache_key key) = Some cached).
  { destruct (decide (key_of request = cache_key key)) as [Heq|Hne].
    - rewrite (static_hit_writes_nothing self_origin net request cs cached); [exact Hm| |].
      + rewrite <- classify_cache_key. fold (key_of request). rewrite Heq.
        rewrite classify_cache_key.
        apply (classify_STATIC_any self_origin (new_Request key)). exact Hstatic.
      + rewrite (match_in_GET _ _ HGET), Heq. exact Hm.
    - destruct (handleRequest_cases self_origin net request cs)
        as [(_ & c & _ & _ & Hcs & _)
           |[(r & pre & _ & _ & _ & Hcs & _)
           |[(r & pre & _ & _ & _ & Hcs & _)
            |(e & resp & _ & _ & Hcs & _)]]];
        rewrite Hcs; try exact Hm.
      destruct (put_accepts request r).
      + rewrite storage_match_put_other by exact Hne. rewrite storage_match_open. exact Hm.
      + rewrite storage_match_open. exact Hm. }
  destruct (handleRequest self_origin net request (URL_parse (url request)) (start cs))
    as [[resp|e] s']; exact H.
Qed.

(** X15: a cached static resource is never refreshed by fetch handling.
    Once some cache holds an entry for a URL that is classified STATIC, every
    sequence of fetch events, on whatever networks, leaves that entry what
    [caches.match] finds for the URL, and a request for it is answered with
    it without a fetch. *)
Theorem static_entry_is_never_refreshed (self_origin : string)
    (events : list ((Request -> FetchOutcome) * Request)) (cs : CacheStorage)
    (net : Request -> FetchOutcome) (request : Request) (cached : Response) :
  classify self_origin request (URL_parse (url request)) = STATIC ->
  match_in cs request = Some cached ->
  let later := serve self_origin events cs in
  let res := handleRequest self_origin net request (URL_parse (url request)) (start later) in
  match_in later request = Some cached /\
  res.1 = Returned cached /\
  trace res.2 = [EvMatch (url request)].
Proof.
  intros Hclass Hm later.
  destruct (match_in_Some _ _ _ Hm) as [HGET Hkey].
  assert (Hlater : match_in later request = Some cached).
  { rewrite (match_in_GET _ _ HGET). subst later. unfold serve. unfold key_of in *.
    revert cs Hm Hkey.
    induction events as [|[net' request'] events IH]; intros cs Hm Hkey; simpl; [exact Hkey|].
    assert (Hstep : storage_match
                      (caches (page_fetch self_origin net' request' (start cs)).2)
                      (cache_key (url request)) = Some cached).
    { apply page_fetch_keeps_static_entry; [|exact Hkey].
      apply (classify_STATIC_any self_origin request). exact Hclass. }
    apply IH; [|exact Hstep].
    unfold match_in. rewrite HGET. exact Hstep. }
  cbv zeta. split; [exact Hlater|]. unfold handleRequest. rewrite Hclass.
  unfold handleStaticResource. run_handler. rewrite Hlater. split; reflexivity.
Qed.

Lemma static_entry_is_never_refreshed_witness :
  let cs := Sample.holding STATIC_CACHE (url Sample.style) Sample.stale in
  let later := serve Sample.site
                 [(Sample.online Sample.fresh, Sample.style);
                  (Sample.online Sample.fresh, Sample.progress);
                  (Sample.online Sample.fresh, Sample.lesson)] cs in
  match_in later Sample.style = Some Sample.stale.
Proof.
  refine (proj1 (static_entry_is_never_refreshed Sample.site _
                   (Sample.holding STATIC_CACHE (url Sample.style) Sample.stale)
                   Sample.offline Sample.style Sample.stale _ _)); reflexivity.
Defined.
